(** * pyNote: the browser client of the semantic index and RAG pipeline

    A shallow embedding of the client class [PyNote] of [static/app.js]:
    the similarity side panel ([searchSimilarContent],
    [updateSimilarContentDisplay], [getConfidenceClass]), index rebuilds
    ([reindexVault]), the embedding-model selector ([changeModel]), text
    generation ([generateAIResponse], streaming and not) and the
    context-menu transforms ([handleContextAction]).

    The methods are written in a small state-and-exception monad over a
    [World]: the fields of [this], the DOM elements the methods touch, and
    what they do to the outside (alerts, console, requests).  The server,
    the user's answers to [confirm] and a few host functions are read from
    an environment [Env], so every statement holds whatever they are. *)

From Stdlib Require Import ZArith QArith Qround Qabs List String Ascii Bool Lia Lqa.
From Stdlib Require Qcanon.
From Stdlib Require Import DecimalString.
From Stdlib Require DecimalPos DecimalZ.
Import ListNotations.

Set Warnings "-register-all".

Local Close Scope Q_scope.
Local Open Scope nat_scope.
Local Open Scope string_scope.

(** ** JavaScript strings

    A string is a sequence of code units; the model keeps the code units
    below 256, which is what [string] holds. *)

Module JSString.

Definition LF : ascii := "010"%char.

(** WhiteSpace and LineTerminator of ECMAScript, among the code units
    below 256: TAB, LF, VT, FF, CR, SP and NBSP. *)
Definition isWhiteSpace (c : ascii) : bool :=
  match nat_of_ascii c with
  | 9 | 10 | 11 | 12 | 13 | 32 | 160 => true
  | _ => false
  end.

Fixpoint trimStart (s : string) : string :=
  match s with
  | EmptyString => EmptyString
  | String c s' => if isWhiteSpace c then trimStart s' else s
  end.

Fixpoint trimEnd (s : string) : string :=
  match s with
  | EmptyString => EmptyString
  | String c s' =>
      match trimEnd s' with
      | EmptyString => if isWhiteSpace c then EmptyString else String c EmptyString
      | t => String c t
      end
  end.

(** [s.trim()] *)
Definition trim (s : string) : string := trimEnd (trimStart s).

(** [s.startsWith(p)] *)
Definition startsWith (s p : string) : bool := String.prefix p s.

(** [s.slice(n)], for [0 <= n] *)
Fixpoint slice (n : nat) (s : string) : string :=
  match n, s with
  | O, _ => s
  | S _, EmptyString => EmptyString
  | S n', String _ s' => slice n' s'
  end.

(** [s.split(sep)] for a separator of one code unit: the pieces between the
    separators, never an empty array. *)
Fixpoint split (sep : ascii) (s : string) : list string :=
  match s with
  | EmptyString => [EmptyString]
  | String c s' =>
      if Ascii.eqb c sep then EmptyString :: split sep s'
      else match split sep s' with
           | piece :: pieces => String c piece :: pieces
           | [] => [String c EmptyString]
           end
  end.

(** [xs.join(sep)] on strings *)
Fixpoint join (sep : string) (xs : list string) : string :=
  match xs with
  | [] => EmptyString
  | [x] => x
  | x :: rest => x ++ sep ++ join sep rest
  end.

(** [s] is empty, the only falsy string *)
Definition isEmpty (s : string) : bool :=
  match s with EmptyString => true | _ => false end.

End JSString.

(** [Array.prototype.pop]: the last element ([None] for [undefined] on an
    empty array) and the array that is left. *)
Fixpoint pop {A : Type} (xs : list A) : option A * list A :=
  match xs with
  | [] => (None, [])
  | [x] => (Some x, [])
  | x :: rest => let (last, front) := pop rest in (last, x :: front)
  end.

(** ** JavaScript numbers

    A number is NaN, an infinity or a rational: every finite double is a
    rational. An arithmetic operation gives the double nearest to its exact
    result ([similarity * 100] is rounded so), and an infinity when that
    is out of range. *)

Inductive jsnum : Type :=
| NaN
| Inf (negative : bool)
| Num (q : Q).

(** [2^k] for an integer [k] *)
Definition pow2 (k : Z) : Q :=
  if (0 <=? k)%Z then inject_Z (2 ^ k) else Qinv (inject_Z (2 ^ (- k))).

(** The nearest integer, a tie going to the even one *)
Definition round_half_even (x : Q) : Z :=
  let f := Qfloor x in
  match Qcompare (x - inject_Z f)%Q (1 # 2)%Q with
  | Lt => f
  | Gt => (f + 1)%Z
  | Eq => if Z.even f then f else (f + 1)%Z
  end.

(** The double nearest to a rational, as IEEE 754 rounds the exact result
    of an operation: 53 bits of significand, a tie going to the even one;
    the spacing of the doubles is [2^(e - 52)] between [2^e] and
    [2^(e + 1)], and [2^-1074] below [2^-1022]; a result that rounds to
    [2^1024] or more is infinite. *)
Definition binary64 (q : Q) : jsnum :=
  if Qeq_bool q 0%Q then Num 0%Q
  else
    let a := Qabs q in
    let e0 := (Z.log2 (Qnum a) - Z.log2 (Z.pos (Qden a)))%Z in
    let e := if Qle_bool (pow2 e0) a then e0 else (e0 - 1)%Z in
    let ulp := pow2 (Z.max e (-1022) - 52) in
    let r := (inject_Z (round_half_even (a / ulp)) * ulp)%Q in
    if Qle_bool (pow2 1024) r then Inf (negb (Qle_bool 0%Q q))
    else Num (Qred (if Qle_bool 0%Q q then r else - r)%Q).

(** [a * b] *)
Definition num_mul (a b : jsnum) : jsnum :=
  match a, b with
  | Num x, Num y => binary64 (x * y)%Q
  | Inf s, Inf t => Inf (xorb s t)
  | Inf s, Num y | Num y, Inf s =>
      if Qeq_bool y 0%Q then NaN else Inf (xorb s (negb (Qle_bool 0%Q y)))
  | _, _ => NaN
  end.

(** [a >= b] and [a > b]: false as soon as one side is NaN *)
Definition num_ge (a b : jsnum) : bool :=
  match a, b with
  | Num x, Num y => Qle_bool y x
  | Inf s, Inf t => negb s || t
  | Inf s, Num _ => negb s
  | Num _, Inf t => t
  | _, _ => false
  end.

Definition num_gt (a b : jsnum) : bool :=
  match a, b with
  | Num x, Num y => negb (Qle_bool x y)
  | Inf s, Inf t => negb s && t
  | Inf s, Num _ => negb s
  | Num _, Inf t => t
  | _, _ => false
  end.

(** [Math.round]: the nearest integer, a tie going up *)
Definition Math_round (x : jsnum) : jsnum :=
  match x with
  | NaN => NaN
  | Inf s => Inf s
  | Num q => Num (inject_Z (Qfloor (q + (1 # 2))%Q))
  end.

Definition of_Z (z : Z) : jsnum := Num (inject_Z z).

(** The decimal digits of an integer, as [Number.prototype.toString]
    writes them *)
Definition decimal (z : Z) : string := NilEmpty.string_of_int (Z.to_int z).

(** ** JavaScript values, as [JSON.parse] and [response.json()] build them *)

Inductive jsval : Type :=
| JUndefined
| JNull
| JBool (b : bool)
| JNum (q : Q)
| JStr (s : string)
| JArr (items : list jsval)
| JObj (props : list (string * jsval)).

(** An [Error] object; [message] is all the client reads of it. *)
Record js_error : Type := Error { message : string }.

(** A request as [fetch] sends it. [body] is the object given to
    [JSON.stringify]; every request with a body is sent with the header
    [Content-Type: application/json]. *)
Record request : Type := Request {
  url : string;
  method : string;
  body : option jsval
}.

(** What [response.json()] or [JSON.parse] gives: a value, or a
    [SyntaxError] with its message. *)
Inductive json_result : Type :=
| Parsed (v : jsval)
| Malformed (msg : string).

(** A response: [ok], what [json()] resolves to, and what the reader of
    [response.body] yields, decoded: the chunks in order, then the end of
    the stream or, with [read_error], a rejected [read()]. *)
Record response : Type := Response {
  ok : bool;
  json : json_result;
  chunks : list string;
  read_error : option string
}.

Inductive fetch_outcome : Type :=
| Responds (r : response)
| NetworkError (msg : string).

(** The environment of the page.
    - [frac_toString] and [StringToNumber] are the host's
      [Number::toString] on the numbers [decimal] does not cover and its
      reading of a string as a number;
    - [JSON_parse] is [JSON.parse];
    - [fetch_result] is the network and the server: the outcome of a request,
      given the requests sent before it;
    - [confirm_answer] is the user's answer to a [confirm] dialog. *)
Record Env : Type := {
  frac_toString : Q -> string;
  StringToNumber : string -> jsnum;
  JSON_parse : string -> json_result;
  fetch_result : list request -> request -> fetch_outcome;
  confirm_answer : string -> bool
}.

Section Conversions.

Variable env : Env.

(** [Number::toString]: integers below 10^21 in decimal. Up to 2^53 these
    are the digits JavaScript prints. From there on it prints the shortest
    digits that read back as the same double, and zeros after them; the
    digits here read back as the same number too, and the statements that
    show a number are about numbers below 2^53. *)
Definition Number_toString (n : jsnum) : string :=
  match n with
  | NaN => "NaN"
  | Inf false => "Infinity"
  | Inf true => "-Infinity"
  | Num q =>
      let r := Qred q in
      if (Qden r =? 1)%positive && (Z.abs (Qnum r) <? 10 ^ 21)%Z
      then decimal (Qnum r)
      else frac_toString env q
  end.

(** ToString *)
Fixpoint ToString (v : jsval) : string :=
  match v with
  | JUndefined => "undefined"
  | JNull => "null"
  | JBool true => "true"
  | JBool false => "false"
  | JNum q => Number_toString (Num q)
  | JStr s => s
  | JArr items =>
      JSString.join ","
        (map (fun x => match x with
                       | JUndefined | JNull => EmptyString
                       | _ => ToString x
                       end) items)
  | JObj _ => "[object Object]"
  end.

(** ToNumber; an array or an object goes through its string. *)
Definition ToNumber (v : jsval) : jsnum :=
  match v with
  | JUndefined => NaN
  | JNull => Num 0%Q
  | JBool true => Num 1%Q
  | JBool false => Num 0%Q
  | JNum q => Num q
  | JStr s => StringToNumber env s
  | JArr _ | JObj _ => StringToNumber env (ToString v)
  end.

End Conversions.

(** ToBoolean *)
Definition truthy (v : jsval) : bool :=
  match v with
  | JUndefined | JNull => false
  | JBool b => b
  | JNum q => negb (Qeq_bool q 0%Q)
  | JStr s => negb (JSString.isEmpty s)
  | JArr _ | JObj _ => true
  end.

(** [v === s] for a string [s] *)
Definition is_string (v : jsval) (s : string) : bool :=
  match v with
  | JStr t => String.eqb t s
  | _ => false
  end.

(** [a === b]. Two arrays or two objects are equal when they are the same
    object; the values compared here come from different places of parsed
    JSON, which are never the same object. *)
Definition strict_equals (a b : jsval) : bool :=
  match a, b with
  | JUndefined, JUndefined => true
  | JNull, JNull => true
  | JBool x, JBool y => Bool.eqb x y
  | JNum x, JNum y => Qeq_bool x y
  | JStr x, JStr y => String.eqb x y
  | _, _ => false
  end.

(** Property [name] of an object with the own properties [props] (a name
    is bound once in an object; the first binding is the one read). *)
Fixpoint lookup (name : string) (props : list (string * jsval)) : jsval :=
  match props with
  | [] => JUndefined
  | (k, v) :: rest => if String.eqb k name then v else lookup name rest
  end.

(** ** The page: the fields of [this], the DOM, and the outside *)

(** A [<button>]: its text and whether it is disabled. *)
Record Button : Type := {
  label : string;
  disabled : bool
}.

(** A [<select>]: the values of its options, the value it shows (that of
    the selected option, [""] when none is selected), and whether it is
    disabled. *)
Record Select : Type := {
  options : list string;
  value : string;
  select_disabled : bool
}.

(** An element of which the client sets the text and the class. *)
Record TextBox : Type := {
  textContent : string;
  className : string
}.

(** One [div.similar-item] of the side panel: the text of its file span,
    the text and the class list of its score span, the text of its snippet,
    and the path its click handler opens. *)
Record SimilarItem : Type := {
  item_file : string;
  item_score : string;
  item_score_classes : list string;
  item_snippet : string;
  item_opens : jsval
}.

(** The container [#similar-content]: [placeholder] stands for the
    paragraph [p.empty-state] (Type to see related content...), [children]
    for the items appended after it. *)
Record SimilarContent : Type := {
  placeholder : bool;
  children : list SimilarItem
}.

(** The CodeMirror document: the text before the selection, the selected
    text and the text after it. *)
Record CodeMirror : Type := {
  before : string;
  selection : string;
  after : string
}.

(** What [console.error] was given after its label. *)
Inductive logged : Type :=
| LogValue (v : jsval)
| LogError (e : js_error).

(** The fields of the [PyNote] object. [availableModels] holds the model
    descriptors, each an object. [contextMenu] is the [display] style of
    the menu element, when there is one. *)
Record PyNote : Type := {
  currentFile : jsval;
  codeMirror : option CodeMirror;
  vaultName : option string;
  unsavedChanges : bool;
  availableModels : list (list (string * jsval));
  currentModel : jsval;
  selectedText : string;
  contextMenu : option string
}.

(** The elements of the document the methods read or write.
    [model_info] is the descriptor [#model-info] shows, if any. *)
Record Document : Type := {
  similar_content : SimilarContent;
  reindex : Button;
  model_selector : Select;
  model_info : option (list (string * jsval));
  ai_prompt : string;
  ai_use_context : bool;
  ai_model_selector : string;
  ai_generate : Button;
  responseContent : TextBox;
  responseMeta : string
}.

(** [this.editor]: [initEditor] sets it right after [this.codeMirror], to an
    object whose methods call the CodeMirror instance, and nothing else
    assigns either field; so it is set exactly when [this.codeMirror] is. *)
Definition editor (t : PyNote) : bool :=
  match codeMirror t with
  | Some _ => true
  | None => false
  end.

(** [this.codeMirror.getValue()] *)
Definition getValue (cm : CodeMirror) : string :=
  before cm ++ selection cm ++ after cm.

(** What the page did to the outside, oldest first. *)
Record Outside : Type := {
  alerts : list string;
  console : list (string * logged);
  requests : list request
}.

Record World : Type := {
  env : Env;
  this : PyNote;
  document : Document;
  outside : Outside
}.

(** *** Field updates *)

Definition with_codeMirror (v : option CodeMirror) (t : PyNote) : PyNote :=
  {| currentFile := currentFile t; codeMirror := v;
     vaultName := vaultName t; unsavedChanges := unsavedChanges t;
     availableModels := availableModels t; currentModel := currentModel t;
     selectedText := selectedText t; contextMenu := contextMenu t |}.

Definition with_unsavedChanges (v : bool) (t : PyNote) : PyNote :=
  {| currentFile := currentFile t; codeMirror := codeMirror t;
     vaultName := vaultName t; unsavedChanges := v;
     availableModels := availableModels t; currentModel := currentModel t;
     selectedText := selectedText t; contextMenu := contextMenu t |}.

Definition with_currentModel (v : jsval) (t : PyNote) : PyNote :=
  {| currentFile := currentFile t; codeMirror := codeMirror t;
     vaultName := vaultName t; unsavedChanges := unsavedChanges t;
     availableModels := availableModels t; currentModel := v;
     selectedText := selectedText t; contextMenu := contextMenu t |}.

Definition with_contextMenu (v : option string) (t : PyNote) : PyNote :=
  {| currentFile := currentFile t; codeMirror := codeMirror t;
     vaultName := vaultName t; unsavedChanges := unsavedChanges t;
     availableModels := availableModels t; currentModel := currentModel t;
     selectedText := selectedText t; contextMenu := v |}.

Definition with_similar_content (v : SimilarContent) (d : Document) : Document :=
  {| similar_content := v; reindex := reindex d; model_selector := model_selector d;
     model_info := model_info d; ai_prompt := ai_prompt d;
     ai_use_context := ai_use_context d; ai_model_selector := ai_model_selector d;
     ai_generate := ai_generate d; responseContent := responseContent d;
     responseMeta := responseMeta d |}.

Definition with_reindex (v : Button) (d : Document) : Document :=
  {| similar_content := similar_content d; reindex := v; model_selector := model_selector d;
     model_info := model_info d; ai_prompt := ai_prompt d;
     ai_use_context := ai_use_context d; ai_model_selector := ai_model_selector d;
     ai_generate := ai_generate d; responseContent := responseContent d;
     responseMeta := responseMeta d |}.

Definition with_model_selector (v : Select) (d : Document) : Document :=
  {| similar_content := similar_content d; reindex := reindex d; model_selector := v;
     model_info := model_info d; ai_prompt := ai_prompt d;
     ai_use_context := ai_use_context d; ai_model_selector := ai_model_selector d;
     ai_generate := ai_generate d; responseContent := responseContent d;
     responseMeta := responseMeta d |}.

Definition with_model_info (v : option (list (string * jsval))) (d : Document) : Document :=
  {| similar_content := similar_content d; reindex := reindex d;
     model_selector := model_selector d;
     model_info := v; ai_prompt := ai_prompt d;
     ai_use_context := ai_use_context d; ai_model_selector := ai_model_selector d;
     ai_generate := ai_generate d; responseContent := responseContent d;
     responseMeta := responseMeta d |}.

Definition with_ai_generate (v : Button) (d : Document) : Document :=
  {| similar_content := similar_content d; reindex := reindex d;
     model_selector := model_selector d;
     model_info := model_info d; ai_prompt := ai_prompt d;
     ai_use_context := ai_use_context d; ai_model_selector := ai_model_selector d;
     ai_generate := v; responseContent := responseContent d;
     responseMeta := responseMeta d |}.

Definition with_responseContent (v : TextBox) (d : Document) : Document :=
  {| similar_content := similar_content d; reindex := reindex d;
     model_selector := model_selector d;
     model_info := model_info d; ai_prompt := ai_prompt d;
     ai_use_context := ai_use_context d; ai_model_selector := ai_model_selector d;
     ai_generate := ai_generate d; responseContent := v;
     responseMeta := responseMeta d |}.

Definition with_responseMeta (v : string) (d : Document) : Document :=
  {| similar_content := similar_content d; reindex := reindex d;
     model_selector := model_selector d;
     model_info := model_info d; ai_prompt := ai_prompt d;
     ai_use_context := ai_use_context d; ai_model_selector := ai_model_selector d;
     ai_generate := ai_generate d; responseContent := responseContent d;
     responseMeta := v |}.

Definition on_this (f : PyNote -> PyNote) (w : World) : World :=
  {| env := env w; this := f (this w); document := document w; outside := outside w |}.

Definition on_document (f : Document -> Document) (w : World) : World :=
  {| env := env w; this := this w; document := f (document w); outside := outside w |}.

Definition on_outside (f : Outside -> Outside) (w : World) : World :=
  {| env := env w; this := this w; document := document w; outside := f (outside w) |}.

(** ** Running a method: state and exceptions *)

Inductive outcome (A : Type) : Type :=
| Returns (a : A)
| Throws (e : js_error).

Arguments Returns {A} a.
Arguments Throws {A} e.

Definition M (A : Type) : Type := World -> outcome A * World.

Definition ret {A : Type} (a : A) : M A := fun w => (Returns a, w).

Definition bind {A B : Type} (m : M A) (k : A -> M B) : M B :=
  fun w =>
    match m w with
    | (Returns a, w') => k a w'
    | (Throws e, w') => (Throws e, w')
    end.

Definition throw {A : Type} (e : js_error) : M A := fun w => (Throws e, w).

(** [try { m } catch (e) { handler e }] *)
Definition try_catch {A : Type} (m : M A) (handler : js_error -> M A) : M A :=
  fun w =>
    match m w with
    | (Returns a, w') => (Returns a, w')
    | (Throws e, w') => handler e w'
    end.

(** [try { m } finally { cleanup }] *)
Definition try_finally {A : Type} (m : M A) (cleanup : M unit) : M A :=
  fun w =>
    match m w with
    | (r, w') =>
        match cleanup w' with
        | (Returns _, w'') => (r, w'')
        | (Throws e, w'') => (Throws e, w'')
        end
    end.

(** A call to an async method whose promise is dropped: what it throws
    rejects that promise and reaches nobody. The callee is run to its end
    at the call; the caller's later writes are to other fields than the
    callee's, so the world they leave is the same in either order. *)
Definition detached (m : M unit) : M unit :=
  fun w => (Returns tt, snd (m w)).

Definition gets {A : Type} (f : World -> A) : M A := fun w => (Returns (f w), w).

Definition modify (f : World -> World) : M unit := fun w => (Returns tt, f w).

Definition exec {A : Type} (m : M A) (w : World) : World := snd (m w).

Definition result {A : Type} (m : M A) (w : World) : outcome A := fst (m w).

Declare Scope js_scope.
Delimit Scope js_scope with js.
Notation "x <- m ;; k" := (bind m (fun x => k))
  (at level 61, m at next level, right associativity) : js_scope.
Notation "m ;; k" := (bind m (fun _ => k))
  (at level 61, right associativity) : js_scope.
Local Open Scope js_scope.

Fixpoint forEach {A : Type} (f : A -> M unit) (xs : list A) : M unit :=
  match xs with
  | [] => ret tt
  | x :: rest => f x ;; forEach f rest
  end.

(** *** What the host gives *)

Definition TypeError (msg : string) : js_error := Error msg.

(** [v.name]. Reading a property of [null] or [undefined] throws; an array
    and a string have a [length]; the client reads no other property of
    them, nor any of a number or a boolean. *)
Definition get_prop (v : jsval) (name : string) : M jsval :=
  match v with
  | JUndefined =>
      throw (TypeError ("Cannot read properties of undefined (reading '" ++ name ++ "')"))
  | JNull =>
      throw (TypeError ("Cannot read properties of null (reading '" ++ name ++ "')"))
  | JObj props => ret (lookup name props)
  | JArr items =>
      ret (if String.eqb name "length"
           then JNum (inject_Z (Z.of_nat (List.length items))) else JUndefined)
  | JStr s =>
      ret (if String.eqb name "length"
           then JNum (inject_Z (Z.of_nat (String.length s))) else JUndefined)
  | JBool _ | JNum _ => ret JUndefined
  end.

(** [new Error(v)] *)
Definition new_Error (e : Env) (v : jsval) : js_error :=
  match v with
  | JUndefined => Error EmptyString
  | _ => Error (ToString e v)
  end.

(** The string a [textContent] setter stores. *)
Definition text_of (e : Env) (v : jsval) : string :=
  match v with
  | JUndefined | JNull => EmptyString
  | _ => ToString e v
  end.

Definition alert (msg : string) : M unit :=
  modify (on_outside (fun o =>
    {| alerts := (alerts o ++ [msg])%list; console := console o; requests := requests o |})).

Definition console_error (label : string) (what : logged) : M unit :=
  modify (on_outside (fun o =>
    {| alerts := alerts o; console := (console o ++ [(label, what)])%list;
       requests := requests o |})).

(** [fetch(url, {method, body})]: the request goes out, and the network
    says what comes back. *)
Definition fetch (u : string) (m : string) (b : option jsval) : M response :=
  fun w =>
    let req := {| url := u; method := m; body := b |} in
    let w' := on_outside (fun o =>
      {| alerts := alerts o; console := console o;
         requests := (requests o ++ [req])%list |}) w in
    match fetch_result (env w) (requests (outside w)) req with
    | Responds r => (Returns r, w')
    | NetworkError msg => (Throws (TypeError msg), w')
    end.

(** [await response.json()] *)
Definition response_json (r : response) : M jsval :=
  match json r with
  | Parsed v => ret v
  | Malformed msg => throw (Error msg)
  end.

(** [this.editor.getValue()], which is [this.codeMirror.getValue()] *)
Definition editor_getValue : M string :=
  t <- gets this ;;
  match codeMirror t with
  | Some cm => ret (getValue cm)
  | None => throw (TypeError "Cannot read properties of undefined (reading 'getValue')")
  end.

(** ** The methods of [PyNote] *)

(** [updateUI] redraws the header, the file label and the file buttons from
    the fields of [this]; none of these elements is in [Document], and no
    method below reads them. *)
Definition updateUI : M unit := ret tt.

Definition hideContextMenu : M unit :=
  t <- gets this ;;
  match contextMenu t with
  | Some _ => modify (on_this (with_contextMenu (Some "none")))
  | None => ret tt
  end.

Definition getConfidenceClass (percentage : jsnum) : string :=
  if num_ge percentage (of_Z 80) then "confidence-very-high"
  else if num_ge percentage (of_Z 60) then "confidence-high"
  else if num_ge percentage (of_Z 40) then "confidence-medium"
  else if num_ge percentage (of_Z 20) then "confidence-low"
  else "confidence-very-low".

(** [Math.round(item.similarity * 100)] *)
Definition percentage_of (e : Env) (similarity : jsval) : jsnum :=
  Math_round (num_mul (ToNumber e similarity) (of_Z 100)).

(** The body of the [forEach] of [updateSimilarContentDisplay]: the element
    built for one item, appended to the container. *)
Definition appendSimilarItem (item : jsval) : M unit :=
  e <- gets env ;;
  file_path <- get_prop item "file_path" ;;
  similarity <- get_prop item "similarity" ;;
  let percentage := percentage_of e similarity in
  let confidenceClass := getConfidenceClass percentage in
  snippet <- get_prop item "snippet" ;;
  let itemEl :=
    {| item_file := text_of e file_path;
       item_score := Number_toString e percentage ++ "%";
       item_score_classes := ["similar-item-score"; confidenceClass];
       item_snippet := text_of e snippet;
       item_opens := file_path |} in
  modify (on_document (fun d =>
    with_similar_content
      {| placeholder := placeholder (similar_content d);
         children := (children (similar_content d) ++ [itemEl])%list |} d)).

Definition updateSimilarContentDisplay (similarItems : jsval) : M unit :=
  len <- get_prop similarItems "length" ;;
  if strict_equals len (JNum 0)
  then modify (on_document
         (with_similar_content {| placeholder := true; children := [] |}))
  else
    modify (on_document
      (with_similar_content {| placeholder := false; children := [] |})) ;;
    match similarItems with
    | JArr items => forEach appendSimilarItem items
    | _ => throw (TypeError "similarItems.forEach is not a function")
    end.

Definition searchSimilarContent : M unit :=
  t <- gets this ;;
  if negb (truthy (currentFile t)) || negb (editor t)
  then updateSimilarContentDisplay (JArr [])
  else
    text <- editor_getValue ;;
    let content := JSString.trim text in
    if (String.length content <? 50)%nat
    then updateSimilarContentDisplay (JArr [])
    else
      try_catch
        (path <- get_prop (currentFile t) "path" ;;
         response <- fetch "/api/similar" "POST"
           (Some (JObj [("query", JStr content);
                        ("current_file", path);
                        ("limit", JNum 5)])) ;;
         result <- response_json response ;;
         similar <- get_prop result "similar" ;;
         if truthy similar
         then updateSimilarContentDisplay similar
         else
           error <- get_prop result "error" ;;
           console_error "Error searching similar content:" (LogValue error) ;;
           updateSimilarContentDisplay (JArr []))
        (fun error =>
           console_error "Error searching similar content:" (LogError error) ;;
           updateSimilarContentDisplay (JArr [])).

(** [!this.vaultName] is false *)
Definition has_vault (t : PyNote) : bool :=
  match vaultName t with
  | Some name => negb (JSString.isEmpty name)
  | None => false
  end.

Definition reindexVault : M unit :=
  t <- gets this ;;
  if negb (has_vault t)
  then alert "No vault selected"
  else
    e <- gets env ;;
    button <- gets (fun w => reindex (document w)) ;;
    let originalText := label button in
    modify (on_document
      (with_reindex {| label := "Indexing..."; disabled := true |})) ;;
    try_finally
      (try_catch
         (response <- fetch "/api/reindex" "POST" None ;;
          result <- response_json response ;;
          success <- get_prop result "success" ;;
          if truthy success
          then
            processed <- get_prop result "processed" ;;
            alert ("Successfully indexed " ++ ToString e processed ++ " files!") ;;
            t' <- gets this ;;
            if truthy (currentFile t') && editor t'
            then detached searchSimilarContent
            else ret tt
          else
            error <- get_prop result "error" ;;
            alert ("Error indexing vault: " ++ ToString e error))
         (fun error => alert ("Error indexing vault: " ++ message error)))
      (modify (on_document
         (with_reindex {| label := originalText; disabled := false |}))).

(** [infoDiv] shows the first available model whose name is the current
    model, or nothing. *)
Definition updateModelInfo : M unit :=
  t <- gets this ;;
  let named (m : list (string * jsval)) :=
    strict_equals (lookup "name" m) (currentModel t) in
  modify (on_document (with_model_info (find named (availableModels t)))).

(** [selector.value = v]: the first option of that value gets selected;
    when there is none, no option is, and [value] reads [""]. *)
Definition set_value (e : Env) (v : jsval) (s : Select) : Select :=
  let text := ToString e v in
  {| options := options s;
     value := if existsb (String.eqb text) (options s) then text else EmptyString;
     select_disabled := select_disabled s |}.

Definition set_select_disabled (b : bool) (s : Select) : Select :=
  {| options := options s; value := value s; select_disabled := b |}.

Definition revert_selection : M unit :=
  modify (fun w =>
    on_document (fun d =>
      with_model_selector
        (set_value (env w) (currentModel (this w)) (model_selector d)) d) w).

Definition changeModel (modelName : string) : M unit :=
  t <- gets this ;;
  if JSString.isEmpty modelName || is_string (currentModel t) modelName
  then ret tt
  else
    e <- gets env ;;
    modify (on_document (fun d =>
      with_model_selector (set_select_disabled true (model_selector d)) d)) ;;
    try_finally
      (try_catch
         (response <- fetch "/api/models/current" "POST"
            (Some (JObj [("model_name", JStr modelName)])) ;;
          result <- response_json response ;;
          success <- get_prop result "success" ;;
          if truthy success
          then
            modify (on_this (with_currentModel (JStr modelName))) ;;
            updateModelInfo ;;
            t' <- gets this ;;
            if has_vault t'
            then
              let shouldReindex :=
                confirm_answer e
                  ("Model changed to " ++ modelName ++
                   ". Would you like to reindex the vault now to use the new embeddings?") in
              if shouldReindex then reindexVault else ret tt
            else ret tt
          else
            error <- get_prop result "error" ;;
            alert ("Error changing model: " ++ ToString e error) ;;
            revert_selection)
         (fun error =>
            alert ("Error changing model: " ++ message error) ;;
            revert_selection))
      (modify (on_document (fun d =>
         with_model_selector (set_select_disabled false (model_selector d)) d))).

(** *** Generation *)

Definition set_responseContent (text cls : string) : M unit :=
  modify (on_document
    (with_responseContent {| textContent := text; className := cls |})).

Definition set_responseMeta (text : string) : M unit :=
  modify (on_document (with_responseMeta text)).

(** The line under the response: how many notes the context came from. *)
Definition context_report (e : Env) (contextCount : jsval) : string :=
  if num_gt (ToNumber e contextCount) (of_Z 0)
  then "Used context from " ++ ToString e contextCount ++ " notes"
  else "No context used".

(** The [catch] of both branches of [generateAIResponse] *)
Definition show_generation_error (error : js_error) : M unit :=
  set_responseContent ("Error: " ++ message error) "ai-response-content error" ;;
  set_responseMeta EmptyString.

(** The body of [for (const line of lines)]: one line of the stream, with
    the [contextCount] before it; gives the [contextCount] after it. *)
Definition handle_line (line : string) (contextCount : jsval) : M jsval :=
  if JSString.startsWith line "data: "
  then
    try_catch
      (e <- gets env ;;
       data <- match JSON_parse e (JSString.slice 6 line) with
               | Parsed v => ret v
               | Malformed msg => throw (Error msg)
               end ;;
       type <- get_prop data "type" ;;
       if is_string type "context" then
         items <- get_prop data "items" ;;
         ret items
       else if is_string type "token" then
         content <- get_prop data "content" ;;
         modify (on_document (fun d =>
           with_responseContent
             {| textContent := textContent (responseContent d) ++ ToString e content;
                className := className (responseContent d) |} d)) ;;
         ret contextCount
       else if is_string type "done" then
         modify (on_document (fun d =>
           with_responseContent
             {| textContent := textContent (responseContent d);
                className := "ai-response-content" |} d)) ;;
         set_responseMeta (context_report e contextCount) ;;
         ret contextCount
       else if is_string type "error" then
         msg <- get_prop data "message" ;;
         throw (new_Error e msg)
       else ret contextCount)
      (fun e =>
         console_error "Error parsing SSE data:" (LogError e) ;;
         ret contextCount)
  else ret contextCount.

Fixpoint handle_lines (lines : list string) (contextCount : jsval) : M jsval :=
  match lines with
  | [] => ret contextCount
  | line :: rest =>
      contextCount' <- handle_line line contextCount ;;
      handle_lines rest contextCount'
  end.

(** The [while (true)] loop over [reader.read()]: [pending] is what the
    reader has yet to yield, [failure] the error it ends on, if any. *)
Fixpoint read_loop (pending : list string) (failure : option string)
    (buffer : string) (contextCount : jsval) : M unit :=
  match pending with
  | [] =>
      match failure with
      | Some msg => throw (TypeError msg)
      | None => ret tt
      end
  | value :: rest =>
      let lines := JSString.split JSString.LF (buffer ++ value) in
      let (last, lines') := pop lines in
      let buffer' :=
        match last with
        | Some s => if JSString.isEmpty s then EmptyString else s
        | None => EmptyString
        end in
      contextCount' <- handle_lines lines' contextCount ;;
      read_loop rest failure buffer' contextCount'
  end.

Definition generation_request (u prompt : string) (useContext : bool)
    (model : string) : M response :=
  fetch u "POST"
    (Some (JObj [("prompt", JStr prompt);
                 ("use_context", JBool useContext);
                 ("model", JStr model)])).

Definition generateAIResponse (useStreaming : bool) : M unit :=
  e <- gets env ;;
  d <- gets document ;;
  let useContext := ai_use_context d in
  let model := ai_model_selector d in
  let prompt := JSString.trim (ai_prompt d) in
  if JSString.isEmpty prompt
  then ret tt
  else
    modify (on_document
      (with_ai_generate {| label := "Generating..."; disabled := true |})) ;;
    set_responseContent EmptyString "ai-response-content loading" ;;
    set_responseMeta EmptyString ;;
    (if useStreaming
     then
       try_catch
         (set_responseContent "Thinking..." "ai-response-content streaming" ;;
          response <- generation_request "/api/ai/stream" prompt useContext model ;;
          if negb (ok response)
          then throw (Error "Failed to generate response")
          else
            modify (on_document (fun d =>
              with_responseContent
                {| textContent := EmptyString;
                   className := className (responseContent d) |} d)) ;;
            read_loop (chunks response) (read_error response) EmptyString (JNum 0))
         show_generation_error
     else
       try_catch
         (modify (on_document (fun d =>
            with_responseContent
              {| textContent := "Generating response...";
                 className := className (responseContent d) |} d)) ;;
          response <- generation_request "/api/ai/generate" prompt useContext model ;;
          result <- response_json response ;;
          error <- get_prop result "error" ;;
          if truthy error
          then throw (new_Error e error)
          else
            text <- get_prop result "response" ;;
            context_used <- get_prop result "context_used" ;;
            set_responseContent (text_of e text) "ai-response-content" ;;
            set_responseMeta (context_report e context_used))
         show_generation_error) ;;
    modify (on_document
      (with_ai_generate {| label := "Generate"; disabled := false |})).

(** *** Context-menu transforms *)

(** The [switch] of [handleContextAction]: the endpoint and the payload of
    an action, [None] for the [default] case. *)
Definition transform_request (action text context model : string)
    : option (string * jsval) :=
  if String.eqb action "expand" then
    Some ("/api/ai/expand",
          JObj [("text", JStr text); ("context", JStr context); ("model", JStr model)])
  else if String.eqb action "summarize" then
    Some ("/api/ai/summarize",
          JObj [("text", JStr text); ("model", JStr model)])
  else if String.eqb action "rephrase-professional" then
    Some ("/api/ai/rephrase",
          JObj [("text", JStr text); ("tone", JStr "professional"); ("model", JStr model)])
  else if String.eqb action "rephrase-casual" then
    Some ("/api/ai/rephrase",
          JObj [("text", JStr text); ("tone", JStr "casual"); ("model", JStr model)])
  else if String.eqb action "rephrase-academic" then
    Some ("/api/ai/rephrase",
          JObj [("text", JStr text); ("tone", JStr "academic"); ("model", JStr model)])
  else None.

(** The field of the response the replacement is read from. *)
Definition result_field (action : string) : option string :=
  if String.eqb action "expand" then Some "expanded_text"
  else if String.eqb action "summarize" then Some "summary"
  else if JSString.startsWith action "rephrase" then Some "rephrased_text"
  else None.

(** [updatePreview]: the text of the editor is sent to be rendered. The
    element [#preview] that takes the answer ([result.html], unless it is
    [undefined]) is not in [Document]; a failure goes to the console. *)
Definition updatePreview : M unit :=
  t <- gets this ;;
  if negb (editor t)
  then ret tt
  else
    content <- editor_getValue ;;
    try_catch
      (response <- fetch "/api/preview" "POST"
         (Some (JObj [("content", JStr content)])) ;;
       result <- response_json response ;;
       html <- get_prop result "html" ;;
       ret tt)
      (fun error => console_error "Error updating preview:" (LogError error)).

(** [debouncedSimilaritySearch] arms a timer of one second, in place of
    the one armed before: the search it starts runs after the method that
    changed the text has returned. Timers are not in [World]. *)
Definition debouncedSimilaritySearch : M unit := ret tt.

(** The listener [initEditor] puts on the [change] event of CodeMirror.
    The promise of [updatePreview] is dropped. *)
Definition on_change : M unit :=
  modify (on_this (with_unsavedChanges true)) ;;
  detached updatePreview ;;
  updateUI ;;
  debouncedSimilaritySearch.

(** How CodeMirror stores a text: it cuts it into lines at CR LF, CR and
    LF, and [getValue] joins the lines with LF. *)
Fixpoint splitLinesAuto (s : string) : string :=
  match s with
  | EmptyString => EmptyString
  | String c s' =>
      if Ascii.eqb c "013"%char
      then String JSString.LF
             match s' with
             | String c' s'' =>
                 if Ascii.eqb c' JSString.LF then splitLinesAuto s''
                 else splitLinesAuto s'
             | EmptyString => EmptyString
             end
      else String c (splitLinesAuto s')
  end.

(** [this.codeMirror.replaceSelection(text)]: the selected text is replaced
    and the cursor left after it; then the [change] event is fired, unless
    nothing was replaced by nothing. CodeMirror splits [text] into lines
    with [split], which only a string has. *)
Definition replaceSelection (cm : CodeMirror) (text : jsval) : M unit :=
  match text with
  | JStr s =>
      if JSString.isEmpty s && JSString.isEmpty (selection cm)
      then ret tt
      else
        modify (on_this (with_codeMirror
          (Some {| before := before cm ++ splitLinesAuto s;
                   selection := EmptyString;
                   after := after cm |}))) ;;
        on_change
  | _ => throw (TypeError "string.split is not a function")
  end.

Definition handleContextAction (action : string) : M unit :=
  hideContextMenu ;;
  t <- gets this ;;
  if JSString.isEmpty (JSString.trim (selectedText t))
  then ret tt
  else
    e <- gets env ;;
    model <- gets (fun w => ai_model_selector (document w)) ;;
    context <- (if editor t then editor_getValue else ret EmptyString) ;;
    try_catch
      (match transform_request action (selectedText t) context model with
       | None => ret tt
       | Some (endpoint, payload) =>
           response <- fetch endpoint "POST" (Some payload) ;;
           result <- response_json response ;;
           error <- get_prop result "error" ;;
           if truthy error
           then throw (new_Error e error)
           else
             resultText <- match result_field action with
                           | Some field => get_prop result field
                           | None => ret JUndefined
                           end ;;
             t' <- gets this ;;
             match codeMirror t' with
             | Some cm =>
                 if truthy resultText
                 then
                   replaceSelection cm resultText ;;
                   modify (on_this (with_unsavedChanges true)) ;;
                   updateUI
                 else ret tt
             | None => ret tt
             end
       end)
      (fun error => alert ("Error processing text: " ++ message error)).

(** ** What the statements below are written with *)

(** *** The side panel *)

(** The panel with nothing to show *)
Definition empty_panel : SimilarContent := {| placeholder := true; children := [] |}.

(** The element [appendSimilarItem] builds for an item that is an object
    with the properties [props]. *)
Definition render_item (e : Env) (props : list (string * jsval)) : SimilarItem :=
  let percentage := percentage_of e (lookup "similarity" props) in
  {| item_file := text_of e (lookup "file_path" props);
     item_score := Number_toString e percentage ++ "%";
     item_score_classes := ["similar-item-score"; getConfidenceClass percentage];
     item_snippet := text_of e (lookup "snippet" props);
     item_opens := lookup "file_path" props |}.

(** The five classes by integer percentage *)
Definition class_of_percentage (p : Z) : string :=
  if (p <? 20)%Z then "confidence-very-low"
  else if (p <? 40)%Z then "confidence-low"
  else if (p <? 60)%Z then "confidence-medium"
  else if (p <? 80)%Z then "confidence-high"
  else "confidence-very-high".

Definition confidence_classes : list string :=
  ["confidence-very-low"; "confidence-low"; "confidence-medium";
   "confidence-high"; "confidence-very-high"].




(** Every run of [m] relates the world it starts in to the one it leaves. *)
Definition preserves (R : World -> World -> Prop) {A : Type} (m : M A) : Prop :=
  forall w, R w (snd (m w)).

(** *** Requests *)

Definition log_request (req : request) (w : World) : World :=
  on_outside (fun o =>
    {| alerts := alerts o; console := console o;
       requests := (requests o ++ [req])%list |}) w.

Definition reindex_request : request :=
  {| url := "/api/reindex"; method := "POST"; body := None |}.

Definition model_request (modelName : string) : request :=
  {| url := "/api/models/current"; method := "POST";
     body := Some (JObj [("model_name", JStr modelName)]) |}.

(** The server accepted the new model: the response is an object whose
    [success] is truthy. Anything else is a failed request: no response, a
    body that is not JSON, [null], or a falsy or missing [success]. *)
Definition request_succeeds (o : fetch_outcome) : bool :=
  match o with
  | Responds r =>
      match json r with
      | Parsed (JObj props) => truthy (lookup "success" props)
      | _ => false
      end
  | NetworkError _ => false
  end.

(** The request of [updatePreview] for the text [content] *)
Definition preview_request (content : string) : request :=
  {| url := "/api/preview"; method := "POST";
     body := Some (JObj [("content", JStr content)]) |}.

(** The note once [text] has replaced its selection *)
Definition replaced (cm : CodeMirror) (text : string) : CodeMirror :=
  {| before := before cm ++ splitLinesAuto text; selection := EmptyString;
     after := after cm |}.

Definition generation_body (w : World) : jsval :=
  JObj [("prompt", JStr (JSString.trim (ai_prompt (document w))));
        ("use_context", JBool (ai_use_context (document w)));
        ("model", JStr (ai_model_selector (document w)))].

Definition generate_request (w : World) : request :=
  {| url := "/api/ai/generate"; method := "POST"; body := Some (generation_body w) |}.

Definition stream_request (w : World) : request :=
  {| url := "/api/ai/stream"; method := "POST"; body := Some (generation_body w) |}.

(** *** The event stream *)

(** Modelled from the spec: the events of a streaming generation (4.6 and
    the table of 6). The Generation Orchestrator that emits them runs on the
    server and is not in [static/app.js]. *)
Inductive event : Type :=
| Context (count : nat)
| Token (content : string)
| Done
| ErrorEvent (message : string).

(** Modelled from the spec: how a generation that is not cancelled ends
    (4.6): [Completed] after the backend's end of stream, [Failed] with a
    message when the backend returns an error or becomes unreachable. *)
Inductive ending : Type :=
| Completed
| Failed (message : string).

Definition terminal (e : ending) : event :=
  match e with
  | Completed => Done
  | Failed msg => ErrorEvent msg
  end.

(** Modelled from the spec: the stream the orchestrator sends for a request
    whose context has [count] chunks, for which the backend yields [tokens]
    and then ends with [e] (4.6): first the context event, then each token
    as it arrives, then the marker of the end. *)
Definition orchestrate (count : nat) (tokens : list string) (e : ending) : list event :=
  Context count :: (map Token tokens ++ [terminal e])%list.

Definition is_terminal (ev : event) : bool :=
  match ev with
  | Done | ErrorEvent _ => true
  | _ => false
  end.

Fixpoint tokens_then_terminal (evs : list event) : bool :=
  match evs with
  | [ev] => is_terminal ev
  | Token _ :: rest => tokens_then_terminal rest
  | _ => false
  end.

(** One context event, first; then token events only; then one [done] or
    [error] event, last. *)
Definition well_formed_stream (evs : list event) : bool :=
  match evs with
  | Context _ :: rest => tokens_then_terminal rest
  | _ => false
  end.

Definition count_json (n : nat) : jsval := JNum (inject_Z (Z.of_nat n)).

(** The object the client reads an event from: [type], and [items],
    [content] or [message]. *)
Definition event_json (ev : event) : jsval :=
  match ev with
  | Context n => JObj [("type", JStr "context"); ("items", count_json n)]
  | Token c => JObj [("type", JStr "token"); ("content", JStr c)]
  | Done => JObj [("type", JStr "done")]
  | ErrorEvent m => JObj [("type", JStr "error"); ("message", JStr m)]
  end.

Fixpoint no_LF (s : string) : bool :=
  match s with
  | EmptyString => true
  | String c s' => negb (Ascii.eqb c JSString.LF) && no_LF s'
  end.

(** [text] is JSON for the event [ev]; like all that [JSON.stringify] or
    Python's [json.dumps] write, it holds no line feed. *)
Definition encodes (e : Env) (ev : event) (text : string) : Prop :=
  JSON_parse e text = Parsed (event_json ev) /\ no_LF text = true.

(** An event as server-sent events frame it: a [data:] line and a blank
    line. *)
Definition sse_frame (text : string) : string :=
  "data: " ++ text ++ String JSString.LF (String JSString.LF EmptyString).

Definition sse_stream (texts : list string) : string :=
  String.concat "" (map sse_frame texts).

(** The two lines of a frame, as [split] cuts them *)
Definition frame_lines (text : string) : list string := ["data: " ++ text; ""].

(** The lines of [s] that a line feed ends, and what follows the last line
    feed, after the pending text [acc]. *)
Fixpoint scan (acc : string) (s : string) : list string * string :=
  match s with
  | EmptyString => ([], acc)
  | String c s' =>
      if Ascii.eqb c JSString.LF
      then let (ls, r) := scan EmptyString s' in (acc :: ls, r)
      else scan (acc ++ String c EmptyString) s'
  end.

(** How [read_loop] ends once the reader has nothing left *)
Definition finish (failure : option string) : M unit :=
  match failure with
  | Some msg => throw (TypeError msg)
  | None => ret tt
  end.

(** What the client does on each event *)

Definition show_token (s : string) (w : World) : World :=
  on_document (fun d =>
    with_responseContent
      {| textContent := textContent (responseContent d) ++ s;
         className := className (responseContent d) |} d) w.

Definition show_done (contextCount : jsval) (w : World) : World :=
  on_document (with_responseMeta (context_report (env w) contextCount))
    (on_document (fun d =>
       with_responseContent
         {| textContent := textContent (responseContent d);
            className := "ai-response-content" |} d) w).

Definition log_stream_error (msg : string) (w : World) : World :=
  on_outside (fun o =>
    {| alerts := alerts o;
       console := (console o ++ [("Error parsing SSE data:", LogError (Error msg))])%list;
       requests := requests o |}) w.

(** One event consumed: the [contextCount] and the world after it. *)
Definition consume (ev : event) (contextCount : jsval) (w : World) : jsval * World :=
  match ev with
  | Context n => (count_json n, w)
  | Token s => (contextCount, show_token s w)
  | Done => (contextCount, show_done contextCount w)
  | ErrorEvent msg => (contextCount, log_stream_error msg w)
  end.

(** The events consumed one after the other, first to last. *)
Fixpoint consume_all (evs : list event) (contextCount : jsval) (w : World)
    : jsval * World :=
  match evs with
  | [] => (contextCount, w)
  | ev :: rest =>
      let (contextCount', w') := consume ev contextCount w in
      consume_all rest contextCount' w'
  end.

(** The page when the first chunk is read: the request is out, the button
    disabled, the response box empty and marked as streaming. *)
Definition stream_opened (w : World) : World :=
  on_document (fun d =>
    with_responseContent
      {| textContent := ""; className := "ai-response-content streaming" |}
      (with_responseMeta ""
         (with_ai_generate {| label := "Generating..."; disabled := true |} d)))
    (log_request (stream_request w) w).

(** The page after the events of [orchestrate count tokens e]: the tokens
    in the response box, in order; then the report of the context count, or
    the error in the console. *)
Definition after_stream (count : nat) (tokens : list string) (e : ending)
    (w : World) : World :=
  let w' := show_token (String.concat "" tokens) w in
  match e with
  | Completed => show_done (count_json count) w'
  | Failed msg => log_stream_error msg w'
  end.

Definition generation_finished (w : World) : World :=
  on_document (with_ai_generate {| label := "Generate"; disabled := false |}) w.

(** ** Example pages, servers and streams *)

Module Example.

(** A double quote *)
Definition quote : string := String (ascii_of_nat 34) EmptyString.

Definition quoted (s : string) : string := quote ++ s ++ quote.

(** The JSON text of an event (of one whose strings need no escape), with
    the separators of Python's [json.dumps]. *)
Definition event_text (ev : event) : string :=
  match ev with
  | Context n =>
      "{" ++ quoted "type" ++ ": " ++ quoted "context" ++ ", " ++
      quoted "items" ++ ": " ++ decimal (Z.of_nat n) ++ "}"
  | Token c =>
      "{" ++ quoted "type" ++ ": " ++ quoted "token" ++ ", " ++
      quoted "content" ++ ": " ++ quoted c ++ "}"
  | Done => "{" ++ quoted "type" ++ ": " ++ quoted "done" ++ "}"
  | ErrorEvent m =>
      "{" ++ quoted "type" ++ ": " ++ quoted "error" ++ ", " ++
      quoted "message" ++ ": " ++ quoted m ++ "}"
  end.

(** [JSON.parse] on the texts of the events [known]; anything else stands
    for text that is not JSON. *)
Definition parse_events (known : list event) (text : string) : json_result :=
  match find (fun ev => String.eqb (event_text ev) text) known with
  | Some ev => Parsed (event_json ev)
  | None => Malformed "Unexpected token"
  end.

(** A server that answers by URL, and is unreachable for any other. *)
Fixpoint answers (table : list (string * response))
    (history : list request) (req : request) : fetch_outcome :=
  match table with
  | [] => NetworkError "Failed to fetch"
  | (u, r) :: rest =>
      if String.eqb u (url req) then Responds r else answers rest history req
  end.

Definition json_response (v : jsval) : response :=
  {| ok := true; json := Parsed v; chunks := []; read_error := None |}.

Definition stream_response (parts : list string) : response :=
  {| ok := true; json := Malformed "Unexpected token d"; chunks := parts;
     read_error := None |}.

(** A host for the examples. None of them prints a number that is not an
    integer or reads a string as a number, so the two conversions are
    stand-ins. *)
Definition host (known : list event) (table : list (string * response)) : Env :=
  {| frac_toString := fun _ => EmptyString;
     StringToNumber := fun _ => NaN;
     JSON_parse := parse_events known;
     fetch_result := answers table;
     confirm_answer := fun _ => true |}.

Definition minilm : list (string * jsval) :=
  [("name", JStr "all-MiniLM-L6-v2"); ("description", JStr "Fast and small");
   ("size", JStr "80MB"); ("max_seq_length", JNum 256)].

Definition mpnet : list (string * jsval) :=
  [("name", JStr "all-mpnet-base-v2"); ("description", JStr "Best quality");
   ("size", JStr "420MB"); ("max_seq_length", JNum 384)].

Definition note : CodeMirror :=
  {| before := "Notes on retrieval: ";
     selection := "embeddings map text to vectors";
     after := ", and vectors that lie close mean related notes." |}.

Definition short_note : CodeMirror :=
  {| before := "  Buy milk "; selection := ""; after := "" |}.

(** A page with the vault [vault] open on [ideas.md], holding [text]. *)
Definition page (e : Env) (text : CodeMirror) : World :=
  {| env := e;
     this :=
       {| currentFile := JObj [("name", JStr "ideas.md"); ("path", JStr "ideas.md")];
          codeMirror := Some text;
          vaultName := Some "vault";
          unsavedChanges := false;
          availableModels := [minilm; mpnet];
          currentModel := JStr "all-MiniLM-L6-v2";
          selectedText := "embeddings map text to vectors";
          contextMenu := Some "block" |};
     document :=
       {| similar_content := empty_panel;
          reindex := {| label := "Reindex"; disabled := false |};
          model_selector :=
            {| options := ["all-MiniLM-L6-v2"; "all-mpnet-base-v2"];
               value := "all-mpnet-base-v2";
               select_disabled := false |};
          model_info := Some minilm;
          ai_prompt := " What did I write about embeddings? ";
          ai_use_context := true;
          ai_model_selector := "llama3";
          ai_generate := {| label := "Generate"; disabled := false |};
          responseContent := {| textContent := ""; className := "ai-response-content" |};
          responseMeta := "" |};
     outside := {| alerts := []; console := []; requests := [] |} |}.

(** Similarity results: as the client reads them, with a
    [confidence_bucket] besides. *)
Definition entry (path : string) (similarity : Q) (snippet bucket : string)
    : list (string * jsval) :=
  [("file_path", JStr path); ("similarity", JNum similarity);
   ("snippet", JStr snippet); ("confidence_bucket", JStr bucket)].






Definition page_short : World := page (host [] []) short_note.



Definition refused : list (string * jsval) :=
  [("success", JBool false); ("error", JStr "Unknown model")].

Definition page_model_refused : World :=
  page (host [] [("/api/models/current", json_response (JObj refused))]) note.

Definition generated : list (string * jsval) :=
  [("response", JStr "You wrote that embeddings map text to vectors.");
   ("context_used", JNum 3)].

Definition page_generate : World :=
  page (host [] [("/api/ai/generate", json_response (JObj generated))]) note.

(** A generation that fails, not streamed *)
Definition page_generate_failed : World :=
  page (host [] [("/api/ai/generate",
                  json_response (JObj [("error", JStr "model 'llama3' not found")]))])
       note.

(** The response of the table of 6, under [result_text] *)
Definition page_result_text : World :=
  page (host [] [("/api/ai/expand",
                  json_response (JObj [("result_text", JStr "embeddings, learned from text, map it to vectors")]))])
       note.

(** The response the client reads for [expand] *)
Definition expanded : list (string * jsval) :=
  [("expanded_text", JStr "embeddings, learned from text, map it to vectors")].

Definition page_expanded_text : World :=
  page (host [] [("/api/ai/expand", json_response (JObj expanded))]) note.

(** A generation that completes, and the chunks it reaches the reader in:
    cut in the middle of lines. *)
Definition completed : list event := orchestrate 2 ["Embed"; "dings"] Completed.

Definition completed_chunks : list string :=
  let text := sse_stream (map event_text completed) in
  [substring 0 20 text; substring 20 51 text;
   substring 71 (String.length text - 71) text].

Definition page_stream : World :=
  page (host completed [("/api/ai/stream", stream_response completed_chunks)]) note.

(** A generation that fails after one token. *)
Definition failed : list event :=
  orchestrate 0 ["Embed"] (Failed "model 'llama3' not found").

Definition page_stream_failed : World :=
  page (host failed
          [("/api/ai/stream",
            stream_response [sse_stream (map event_text failed)])])
       note.

End Example.

(** ** Beyond the statements above

    What follows is used to state how the same methods behave whatever the
    server answers, and to cover two more parts of the client: the model
    selector ([updateModelSelector]) and the file tree ([renderFileTree],
    [toggleFolder], [hideChildItems], [showChildItems]). *)

(** *** Reading a property *)

(** [null] and [undefined], of which reading a property throws *)
Definition nullish (v : jsval) : bool :=
  match v with
  | JUndefined | JNull => true
  | _ => false
  end.

(** [v.name] for a value that is neither [null] nor [undefined] *)
Definition prop_of (v : jsval) (name : string) : jsval :=
  match v with
  | JObj props => lookup name props
  | JArr items =>
      if String.eqb name "length"
      then JNum (inject_Z (Z.of_nat (List.length items))) else JUndefined
  | JStr s =>
      if String.eqb name "length"
      then JNum (inject_Z (Z.of_nat (String.length s))) else JUndefined
  | _ => JUndefined
  end.

(** The message of the error that reading [v.name] throws *)
Definition cannot_read (v : jsval) (name : string) : string :=
  match v with
  | JNull => "Cannot read properties of null (reading '" ++ name ++ "')"
  | _ => "Cannot read properties of undefined (reading '" ++ name ++ "')"
  end.

(** *** Failures of a request that answers with a record *)

(** The message of the error thrown before the answer is read from the
    record: no response, a body that is not JSON, a body of which no
    property can be read, or a record with a truthy [error]. *)
Definition reported_failure (e : Env) (o : fetch_outcome) : option string :=
  match o with
  | NetworkError msg => Some msg
  | Responds r =>
      match json r with
      | Malformed msg => Some msg
      | Parsed v =>
          if nullish v then Some (cannot_read v "error")
          else if truthy (prop_of v "error")
               then Some (message (new_Error e (prop_of v "error")))
               else None
      end
  end.

(** *** Generation, whatever the server does *)

(** What handling the stream may change: the response box, the line under
    it and the console. *)
Definition beside_the_response (w w' : World) : Prop :=
  env w' = env w /\ this w' = this w /\
  alerts (outside w') = alerts (outside w) /\
  requests (outside w') = requests (outside w) /\
  forall box meta,
    with_responseContent box (with_responseMeta meta (document w')) =
    with_responseContent box (with_responseMeta meta (document w)).


(** How the request of a streamed generation fails before or while the
    body is read: no response, a status that is not ok, or a reader that
    rejects. *)
Definition stream_failure (o : fetch_outcome) : option string :=
  match o with
  | NetworkError msg => Some msg
  | Responds r =>
      if ok r then read_error r else Some "Failed to generate response"
  end.

(** The class of the response box while an answer is streamed in, and
    once a done event has ended it *)
Definition answer_class (w : World) : Prop :=
  className (responseContent (document w)) = "ai-response-content streaming" \/
  className (responseContent (document w)) = "ai-response-content".

(** The box and the line under it after an error reaches the outer catch *)
Definition error_shown (msg : string) (w : World) : Prop :=
  responseContent (document w) =
    {| textContent := "Error: " ++ msg; className := "ai-response-content error" |} /\
  responseMeta (document w) = "".

(** *** The side panel, for items of any kind *)

(** The element shown for an item of any kind; none for [null] and
    [undefined], on which reading a property throws. *)
Definition render_value (e : Env) (item : jsval) : option SimilarItem :=
  if nullish item then None
  else
    let percentage := percentage_of e (prop_of item "similarity") in
    Some {| item_file := text_of e (prop_of item "file_path");
            item_score := Number_toString e percentage ++ "%";
            item_score_classes := ["similar-item-score"; getConfidenceClass percentage];
            item_snippet := text_of e (prop_of item "snippet");
            item_opens := prop_of item "file_path" |}.

(** The elements [shown] appended to the panel *)
Definition add_children (shown : list SimilarItem) (w : World) : World :=
  on_document (fun d =>
    with_similar_content
      {| placeholder := placeholder (similar_content d);
         children := (children (similar_content d) ++ shown)%list |} d) w.

(** A panel that shows every item of a list that is not empty *)
Definition shows_all (e : Env) (items : list jsval) (panel : SimilarContent) : Prop :=
  items <> [] /\ placeholder panel = false /\
  map (render_value e) items = map Some (children panel).

(** The panel replaced by [panel] *)
Definition show_panel (panel : SimilarContent) (w : World) : World :=
  on_document (with_similar_content panel) w.

(** *** Requests of a run *)



(** *** Context-menu transforms, whatever the server does *)

(** [this.editor ? this.editor.getValue() : ''] *)
Definition editor_text (t : PyNote) : string :=
  match codeMirror t with
  | Some cm => getValue cm
  | None => EmptyString
  end.



(** *** The model selector *)






(** ** The file tree

    [renderFileTree] builds one [div.file-item] for each entry of
    [this.files]; [toggleFolder], [hideChildItems] and [showChildItems]
    open and close the folders of the tree. They read and write the
    elements only, so they are functions on the list of the elements, in
    document order. *)

(** [a + b] on numbers *)
Definition num_add (a b : jsnum) : jsnum :=
  match a, b with
  | Num x, Num y => binary64 (x + y)%Q
  | Inf s, Inf t => if Bool.eqb s t then Inf s else NaN
  | Inf s, Num _ | Num _, Inf s => Inf s
  | _, _ => NaN
  end.

(** [a === b] on numbers: false as soon as one side is NaN *)
Definition num_eq (a b : jsnum) : bool :=
  match a, b with
  | Num x, Num y => Qeq_bool x y
  | Inf s, Inf t => Bool.eqb s t
  | _, _ => false
  end.

(** The value of a digit in a radix, if it is one *)
Definition digit_value (radix : Z) (c : ascii) : option Z :=
  let n := Z.of_nat (nat_of_ascii c) in
  let v := if (48 <=? n)%Z && (n <=? 57)%Z then Some (n - 48)%Z
           else if (97 <=? n)%Z && (n <=? 122)%Z then Some (n - 87)%Z
           else if (65 <=? n)%Z && (n <=? 90)%Z then Some (n - 55)%Z
           else None in
  match v with
  | Some d => if (d <? radix)%Z then Some d else None
  | None => None
  end.

(** The number the leading digits of [s] write, [None] when [s] starts
    with no digit; [acc] is the number read so far. *)
Fixpoint leading_digits (radix : Z) (acc : option Z) (s : string) : option Z :=
  match s with
  | EmptyString => acc
  | String c s' =>
      match digit_value radix c with
      | Some d =>
          leading_digits radix
            (Some (match acc with Some a => a * radix + d | None => d end)%Z) s'
      | None => acc
      end
  end.

(** [parseInt(s)]: white space, a sign, [0x] for radix 16, then the digits
    up to the first character that is none. *)
Definition parseInt (s : string) : jsnum :=
  let s1 := JSString.trimStart s in
  let (negative, s2) :=
    match s1 with
    | String "-"%char r => (true, r)
    | String "+"%char r => (false, r)
    | _ => (false, s1)
    end in
  let (radix, s3) :=
    match s2 with
    | String "0"%char (String "x"%char r) => (16%Z, r)
    | String "0"%char (String "X"%char r) => (16%Z, r)
    | _ => (10%Z, s2)
    end in
  match leading_digits radix None s3 with
  | Some n => of_Z (if negative then - n else n)
  | None => NaN
  end.

(** The tokens of a class attribute: what ASCII white space separates. *)
Definition isClassSpace (c : ascii) : bool :=
  match nat_of_ascii c with
  | 9 | 10 | 12 | 13 | 32 => true
  | _ => false
  end.

Fixpoint class_words (current : string) (s : string) : list string :=
  match s with
  | EmptyString => if JSString.isEmpty current then [] else [current]
  | String c s' =>
      if isClassSpace c
      then if JSString.isEmpty current then class_words EmptyString s'
           else current :: class_words EmptyString s'
      else class_words (current ++ String c EmptyString) s'
  end.

Definition classList_contains (token : string) (classes : list string) : bool :=
  existsb (String.eqb token) classes.

(** [classList.add(token)] *)
Definition classList_add (token : string) (classes : list string) : list string :=
  if classList_contains token classes then classes else (classes ++ [token])%list.

(** [classList.remove(token)] *)
Definition classList_remove (token : string) (classes : list string) : list string :=
  filter (fun t => negb (String.eqb token t)) classes.

(** The [classList] of an element whose [className] is set to [s] *)
Definition class_tokens (s : string) : list string :=
  fold_left (fun classes t => classList_add t classes) (class_words EmptyString s) [].

(** The text of [span.file-icon]: a closed folder, an open folder or a
    page; each a character outside the code units the model keeps. *)
Inductive Icon : Type :=
| ClosedFolder
| OpenFolder
| Page.

(** A [div.file-item]: the file its listeners are bound to, its class
    list, the pixels of padding asked for, its [data-] attributes, its
    [display] style, whether it can be dragged, its icon and the text of
    [span.file-name]. *)
Record FileItem : Type := {
  file_of : jsval;
  classList : list string;
  paddingLeft : jsnum;
  data_path : string;
  data_level : string;
  data_type : string;
  display : string;
  draggable : bool;
  icon : Icon;
  file_name : string
}.

Definition with_display (v : string) (el : FileItem) : FileItem :=
  {| file_of := file_of el; classList := classList el;
     paddingLeft := paddingLeft el; data_path := data_path el;
     data_level := data_level el; data_type := data_type el;
     display := v; draggable := draggable el; icon := icon el;
     file_name := file_name el |}.

(** The class list and the icon of an element set together, as the three
    functions below do. *)
Definition with_folder_state (classes : list string) (i : Icon) (el : FileItem)
    : FileItem :=
  {| file_of := file_of el; classList := classes;
     paddingLeft := paddingLeft el; data_path := data_path el;
     data_level := data_level el; data_type := data_type el;
     display := display el; draggable := draggable el; icon := i;
     file_name := file_name el |}.

(** [file.level || 0] *)
Definition level_or_zero (file : jsval) : jsval :=
  if truthy (prop_of file "level") then prop_of file "level" else JNum 0.

(** The body of the [forEach] of [renderFileTree]: the element built for
    a file that is neither [null] nor [undefined]. *)
Definition file_item (e : Env) (file : jsval) : FileItem :=
  let type := prop_of file "type" in
  {| file_of := file;
     classList := class_tokens ("file-item " ++ ToString e type);
     paddingLeft :=
       num_add (num_mul (ToNumber e (level_or_zero file)) (of_Z 20)) (of_Z 8);
     data_path := ToString e (prop_of file "path");
     data_level := ToString e (level_or_zero file);
     data_type := ToString e type;
     display := if strict_equals (level_or_zero file) (JNum 0) then "flex" else "none";
     draggable := is_string type "file";
     icon := if is_string type "folder" then ClosedFolder else Page;
     file_name := text_of e (prop_of file "name") |}.

(** The elements appended one by one; reading a property of a file that
    is [null] or [undefined] throws, and the tree stays as it is then. *)
Fixpoint append_items (e : Env) (files : list jsval) (tree : list FileItem)
    : list FileItem * option js_error :=
  match files with
  | [] => (tree, None)
  | file :: rest =>
      if nullish file
      then (tree, Some (TypeError (cannot_read file "type")))
      else append_items e rest (tree ++ [file_item e file])%list
  end.

Definition renderFileTree (e : Env) (files : list jsval)
    : list FileItem * option js_error :=
  append_items e files [].

(** The element at [i] changed by [f] *)
Fixpoint update_nth {A : Type} (i : nat) (f : A -> A) (l : list A) : list A :=
  match l, i with
  | [], _ => []
  | x :: rest, O => f x :: rest
  | x :: rest, S i' => x :: update_nth i' f rest
  end.

(** An element [querySelectorAll('.file-item')] selects *)
Definition is_file_item (el : FileItem) : bool := classList_contains "file-item" (classList el).

(** [itemPath && itemPath.startsWith(folderPath + '/')] *)
Definition is_under (e : Env) (folderPath : jsval) (el : FileItem) : bool :=
  negb (JSString.isEmpty (data_path el)) &&
  JSString.startsWith (data_path el) (ToString e folderPath ++ "/").

(** The body of the [forEach] of [hideChildItems] *)
Definition hide_item (e : Env) (folderPath : jsval) (el : FileItem) : FileItem :=
  if is_under e folderPath el
  then
    if String.eqb (data_type el) "folder"
    then with_folder_state (classList_remove "expanded" (classList el)) ClosedFolder
           (with_display "none" el)
    else with_display "none" el
  else el.

Definition hideChildItems (e : Env) (folderPath : jsval) (tree : list FileItem)
    : list FileItem :=
  map (fun el => if is_file_item el then hide_item e folderPath el else el) tree.

(** [folderPath.split('/').length - 1] *)
Definition folder_level (folderPath : string) : nat :=
  List.length (JSString.split "/"%char folderPath) - 1.

(** The body of the [forEach] of [showChildItems] *)
Definition show_item (e : Env) (folderPath : string) (el : FileItem) : FileItem :=
  if is_under e (JStr folderPath) el &&
     num_eq (parseInt (data_level el))
       (of_Z (Z.of_nat (folder_level folderPath) + 1))
  then with_display "flex" el
  else el.

(** [showChildItems(folderPath)]; only a string has [split]. *)
Definition showChildItems (e : Env) (folderPath : jsval) (tree : list FileItem)
    : list FileItem * option js_error :=
  match folderPath with
  | JStr p =>
      (map (fun el => if is_file_item el then show_item e p el else el) tree, None)
  | JUndefined | JNull => (tree, Some (TypeError (cannot_read folderPath "split")))
  | _ => (tree, Some (TypeError "folderPath.split is not a function"))
  end.

(** [toggleFolder(folderElement, folder)] for the element at [i] *)
Definition toggleFolder (e : Env) (i : nat) (folder : jsval) (tree : list FileItem)
    : list FileItem * option js_error :=
  match nth_error tree i with
  | None => (tree, None)
  | Some el =>
      if classList_contains "expanded" (classList el)
      then
        let tree' :=
          update_nth i
            (fun el => with_folder_state (classList_remove "expanded" (classList el))
                         ClosedFolder el) tree in
        if nullish folder
        then (tree', Some (TypeError (cannot_read folder "path")))
        else (hideChildItems e (prop_of folder "path") tree', None)
      else
        let tree' :=
          update_nth i
            (fun el => with_folder_state (classList_add "expanded" (classList el))
                         OpenFolder el) tree in
        if nullish folder
        then (tree', Some (TypeError (cannot_read folder "path")))
        else showChildItems e (prop_of folder "path") tree'
  end.

(** The click listener of an element that is not a file:
    [toggleFolder(fileItem, file)]. *)
Definition click_folder (e : Env) (i : nat) (tree : list FileItem)
    : list FileItem * option js_error :=
  match nth_error tree i with
  | Some el => toggleFolder e i (file_of el) tree
  | None => (tree, None)
  end.

(** ** More example pages *)

Module Scenario.

(** The page of the examples with no server to reach: every request fails
    with [Failed to fetch]. *)
Definition offline : World := Example.page (Example.host [] []) Example.note.



Definition newline : string := String JSString.LF EmptyString.

(** One frame, whole and cut in two *)
Definition whole : list string := [sse_frame "{}"].

Definition cut : list string := ["data: {"; "}" ++ newline ++ newline].

(** A comment line, as servers send to keep the connection open *)
Definition keep_alive : list string := [": keep-alive" ++ newline ++ newline].

(** The double that [0.595] reads as, a little below 595/1000: times 100
    it is nearer to 59.5 than to any other double. *)
Definition near_sixty : Q := 2679641778285445 # 4503599627370496.

Definition tipped : list (string * jsval) :=
  [("file_path", JStr "tipped.md"); ("similarity", JNum near_sixty);
   ("snippet", JStr "Just high.")].

(** A result with no [similarity] *)
Definition unscored : list (string * jsval) :=
  [("file_path", JStr "draft.md"); ("snippet", JStr "Untitled")].

End Scenario.

(** ** An example vault *)

Module Vault.

Definition entry (name path type : string) (level : Z) : jsval :=
  JObj [("name", JStr name); ("path", JStr path); ("type", JStr type);
        ("level", JNum (inject_Z level))].

Definition notes : jsval := entry "notes" "notes" "folder" 0.

Definition files : list jsval :=
  [notes;
   entry "ideas.md" "notes/ideas.md" "file" 1;
   entry "deep" "notes/deep" "folder" 1;
   entry "x.md" "notes/deep/x.md" "file" 2;
   entry "readme.md" "readme.md" "file" 0].

Definition host : Env := Example.host [] [].

(** The tree as drawn, and with [notes] and then [notes/deep] opened *)
Definition drawn : list FileItem := fst (renderFileTree host files).

Definition opened : list FileItem :=
  fst (click_folder host 2 (fst (click_folder host 0 drawn))).

End Vault.

(** * Properties *)

(** ** Tactics for running a method on a symbolic world *)

Ltac run :=
  cbn -[Nat.ltb Nat.leb String.length JSString.trim getValue String.append
        ToString ToNumber Number_toString decimal text_of new_Error
        context_report percentage_of getConfidenceClass JSString.split
        JSString.startsWith JSString.slice truthy lookup
        searchSimilarContent reindexVault updateSimilarContentDisplay
        handle_lines read_loop JSString.isEmpty render_item forEach
        existsb transform_request result_field replaceSelection updatePreview].

Ltac fields :=
  cbn [env this document outside
       similar_content reindex model_selector model_info ai_prompt
       ai_use_context ai_model_selector ai_generate responseContent responseMeta
       currentFile codeMirror vaultName unsavedChanges availableModels
       currentModel selectedText contextMenu
       alerts console requests placeholder children textContent className
       label disabled options value select_disabled].

Ltac unfold_monad :=
  unfold bind, try_catch, try_finally, detached, gets, modify, ret, throw,
    alert, console_error, fetch, response_json.

(** ** Strings *)

Lemma append_assoc (a b c : string) : (a ++ b) ++ c = a ++ (b ++ c).
Proof. induction a; simpl; congruence. Qed.

Lemma append_nil_r (a : string) : a ++ "" = a.
Proof. induction a; simpl; congruence. Qed.

Lemma concat_cons (x : string) (xs : list string) :
  String.concat "" (x :: xs) = x ++ String.concat "" xs.
Proof. destruct xs; simpl; [now rewrite append_nil_r | reflexivity]. Qed.

Lemma isEmpty_false (s : string) : s <> "" -> JSString.isEmpty s = false.
Proof. destruct s; [congruence | reflexivity]. Qed.

(** ** Numbers *)

Lemma Qle_bool_inject_Z (a b : Z) :
  Qle_bool (inject_Z a) (inject_Z b) = (a <=? b)%Z.
Proof. unfold Qle_bool, inject_Z; simpl. now rewrite !Z.mul_1_r. Qed.

Lemma num_ge_of_Z (a b : Z) : num_ge (of_Z a) (of_Z b) = (b <=? a)%Z.
Proof. apply Qle_bool_inject_Z. Qed.

Lemma num_gt_of_Z (a b : Z) : num_gt (of_Z a) (of_Z b) = (b <? a)%Z.
Proof.
  unfold num_gt, of_Z. rewrite Qle_bool_inject_Z.
  now rewrite Z.ltb_antisym.
Qed.

Lemma Qred_inject_Z (z : Z) : Qred (inject_Z z) = inject_Z z.
Proof. unfold inject_Z. apply Qcanon.Qred_identity. simpl. apply Z.gcd_1_r. Qed.

(** An integer count is printed in decimal. *)
Lemma ToString_integer (e : Env) (z : Z) :
  (Z.abs z < 10 ^ 21)%Z -> ToString e (JNum (inject_Z z)) = decimal z.
Proof.
  intros Hz. unfold ToString, Number_toString.
  rewrite Qred_inject_Z. cbn [Qden Qnum inject_Z].
  apply Z.ltb_lt in Hz. rewrite Hz. reflexivity.
Qed.


(** The integers a double holds exactly, up to 2^53, are among those
    printed in decimal. *)
Lemma safe_integer_is_printed (z : Z) :
  (Z.abs z < 2 ^ 53)%Z -> (Z.abs z < 10 ^ 21)%Z.
Proof.
  intros H. apply Z.lt_trans with (2 ^ 53)%Z; [exact H | reflexivity].
Qed.

(** ** The confidence class *)

Lemma getConfidenceClass_of_Z (p : Z) :
  getConfidenceClass (of_Z p) = class_of_percentage p.
Proof.
  unfold getConfidenceClass, class_of_percentage.
  rewrite !num_ge_of_Z.
  repeat match goal with
  | |- context [(?a <=? ?b)%Z] => destruct (Z.leb_spec a b)
  | |- context [(?a <? ?b)%Z] => destruct (Z.ltb_spec a b)
  end; try reflexivity; lia.
Qed.

(** Whatever number it is given, NaN included, the function answers with
    one of the five classes. *)
Lemma getConfidenceClass_total (x : jsnum) :
  In (getConfidenceClass x) confidence_classes.
Proof.
  unfold getConfidenceClass, confidence_classes.
  repeat match goal with
  | |- context [if ?b then _ else _] => destruct b
  end; simpl; auto 6.
Qed.

Lemma confidence_classes_distinct : NoDup confidence_classes.
Proof.
  unfold confidence_classes.
  repeat constructor; simpl; intuition discriminate.
Qed.

(** C9. [getConfidenceClass] is total on the integer percentages, negative
    ones included: it returns one of the five classes, each class is the
    image of one range, the five ranges partition the integers, and every
    percentage below 20 is very-low. *)
Theorem getConfidenceClass_partitions_integers (p : Z) :
  In (getConfidenceClass (of_Z p)) confidence_classes /\
  (getConfidenceClass (of_Z p) = "confidence-very-low" <-> (p < 20)%Z) /\
  (getConfidenceClass (of_Z p) = "confidence-low" <-> (20 <= p <= 39)%Z) /\
  (getConfidenceClass (of_Z p) = "confidence-medium" <-> (40 <= p <= 59)%Z) /\
  (getConfidenceClass (of_Z p) = "confidence-high" <-> (60 <= p <= 79)%Z) /\
  (getConfidenceClass (of_Z p) = "confidence-very-high" <-> (80 <= p)%Z).
Proof.
  split; [apply getConfidenceClass_total |].
  rewrite getConfidenceClass_of_Z. unfold class_of_percentage.
  repeat match goal with
  | |- context [(?a <? ?b)%Z] => destruct (Z.ltb_spec a b)
  end; repeat split; intros; try discriminate; try reflexivity; try lia.
Qed.

(** *** The product of doubles *)

Section Rounding.
Local Open Scope Q_scope.






End Rounding.

(** The percentage of a score whose product with 100 is the double
    [product]. *)
Lemma percentage_of_number (e : Env) (score product : Q) :
  num_mul (Num score) (of_Z 100) = Num product ->
  percentage_of e (JNum score) = of_Z (Qfloor (product + (1 # 2))).
Proof. intros H. unfold percentage_of. cbn [ToNumber]. now rewrite H. Qed.

(** The class of a numeric score is that of its rounded percentage. *)
Lemma class_of_score (e : Env) (score product : Q) :
  num_mul (Num score) (of_Z 100) = Num product ->
  getConfidenceClass (percentage_of e (JNum score)) =
  class_of_percentage (Qfloor (product + (1 # 2))).
Proof.
  intros H. now rewrite (percentage_of_number _ _ _ H), getConfidenceClass_of_Z.
Qed.


(** ** What a run leaves alone *)

Section Frame.

Variable R : World -> World -> Prop.
Hypothesis R_refl : forall w, R w w.
Hypothesis R_trans : forall w1 w2 w3, R w1 w2 -> R w2 w3 -> R w1 w3.

Lemma preserves_ret {A : Type} (a : A) : preserves R (ret a).
Proof. intro w; apply R_refl. Qed.

Lemma preserves_throw {A : Type} (e : js_error) : preserves R (@throw A e).
Proof. intro w; apply R_refl. Qed.

Lemma preserves_gets {A : Type} (f : World -> A) : preserves R (gets f).
Proof. intro w; apply R_refl. Qed.

Lemma preserves_bind {A B : Type} (m : M A) (k : A -> M B) :
  preserves R m -> (forall a, preserves R (k a)) -> preserves R (bind m k).
Proof.
  intros Hm Hk w. unfold bind. specialize (Hm w).
  destruct (m w) as [[a | e] w']; simpl in *; [| exact Hm].
  eapply R_trans; [exact Hm | apply Hk].
Qed.

Lemma preserves_try_catch {A : Type} (m : M A) (h : js_error -> M A) :
  preserves R m -> (forall e, preserves R (h e)) -> preserves R (try_catch m h).
Proof.
  intros Hm Hh w. unfold try_catch. specialize (Hm w).
  destruct (m w) as [[a | e] w']; simpl in *; [exact Hm |].
  eapply R_trans; [exact Hm | apply Hh].
Qed.


Lemma preserves_get_prop (v : jsval) (name : string) :
  preserves R (get_prop v name).
Proof. destruct v; intro w; apply R_refl. Qed.


End Frame.











(** ** The side panel *)

Lemma updateSimilarContentDisplay_empty (w : World) :
  updateSimilarContentDisplay (JArr []) w =
  (Returns tt, on_document (with_similar_content empty_panel) w).
Proof. reflexivity. Qed.





(** C3. A query text whose trimmed length is below 50 is not searched for:
    the panel shows its empty state, no request goes out, and nothing else
    changes. *)
Theorem short_query_is_not_searched (w : World) (cm : CodeMirror) :
  codeMirror (this w) = Some cm ->
  String.length (JSString.trim (getValue cm)) < 50 ->
  searchSimilarContent w =
    (Returns tt, on_document (with_similar_content empty_panel) w) /\
  similar_content (document (exec searchSimilarContent w)) = empty_panel /\
  requests (outside (exec searchSimilarContent w)) = requests (outside w).
Proof.
  intros Hcm Hshort.
  assert (Hrun : searchSimilarContent w =
                 (Returns tt, on_document (with_similar_content empty_panel) w)).
  { unfold searchSimilarContent, bind, gets, editor, editor_getValue.
    rewrite Hcm.
    destruct (truthy (currentFile (this w))); run; [| reflexivity].
    rewrite Hcm; run.
    apply Nat.ltb_lt in Hshort. rewrite Hshort. reflexivity. }
  unfold exec. rewrite Hrun. repeat split.
Qed.




(** ** Rebuilding the index *)


(** ** Changing the embedding model *)

Lemma existsb_eqb_In (s : string) (l : list string) :
  In s l -> existsb (String.eqb s) l = true.
Proof.
  intros H. apply existsb_exists. exists s. split; [exact H | apply String.eqb_refl].
Qed.

(** C10. If the request to set the embedding model fails (no response, a
    body that is not JSON, or a response without a truthy [success]), the
    fields of [this] are unchanged, [currentModel] among them, and the
    selector is put back on the current model and enabled; and choosing the
    model that is already current does nothing at all: no request, no
    change. The current model is one of the options of the selector, as
    [updateModelSelector] builds them from the available models. *)
Theorem changeModel_failure_keeps_model
    (w : World) (modelName current : string) :
  currentModel (this w) = JStr current ->
  In current (options (model_selector (document w))) ->
  modelName <> "" ->
  modelName <> current ->
  request_succeeds
    (fetch_result (env w) (requests (outside w)) (model_request modelName)) = false ->
  (let w' := exec (changeModel modelName) w in
   this w' = this w /\
   currentModel (this w') = JStr current /\
   model_selector (document w') =
     {| options := options (model_selector (document w));
        value := current; select_disabled := false |} /\
   requests (outside w') =
     (requests (outside w) ++ [model_request modelName])%list) /\
  changeModel current w = (Returns tt, w).
Proof.
  intros Hcur Hin Hne Hdiff Hfail. split.
  - unfold exec, changeModel, revert_selection. unfold_monad.
    rewrite Hcur. cbn [is_string].
    rewrite (isEmpty_false _ Hne).
    assert (Heqb : String.eqb current modelName = false)
      by (apply String.eqb_neq; congruence).
    rewrite Heqb. run.
    unfold model_request in Hfail.
    assert (Hback : forall e b,
      set_select_disabled false
        (set_value e (JStr current)
           (set_select_disabled b (model_selector (document w)))) =
      {| options := options (model_selector (document w));
         value := current; select_disabled := false |}).
    { intros e b. unfold set_value, set_select_disabled. fields. cbn [ToString].
      now rewrite (existsb_eqb_In _ _ Hin). }
    destruct (fetch_result _ _ _) as [r | msg]; cbn [request_succeeds] in Hfail; run.
    + destruct (json r) as [v | msg]; run.
      * destruct v; run; try rewrite Hfail; cbn [truthy]; run;
          rewrite Hcur, Hback; repeat split.
      * rewrite Hcur, Hback. repeat split.
    + rewrite Hcur, Hback. repeat split.
  - unfold changeModel, bind, gets. rewrite Hcur. cbn [is_string].
    rewrite String.eqb_refl, orb_true_r. reflexivity.
Qed.

(** ** Generation without streaming *)

Lemma context_report_count (e : Env) (n : Z) :
  (Z.abs n < 10 ^ 21)%Z ->
  context_report e (JNum (inject_Z n)) =
  if (0 <? n)%Z then "Used context from " ++ decimal n ++ " notes"
  else "No context used".
Proof.
  intros Hn. unfold context_report. cbn [ToNumber].
  change (Num (inject_Z n)) with (of_Z n).
  now rewrite num_gt_of_Z, (ToString_integer _ _ Hn).
Qed.

(** C5. A generation that is not streamed gives the caller one record with
    the whole response text and the count of context chunks; the client
    shows the text, and reports the count as 'Used context from N notes'
    exactly when it is greater than 0, as 'No context used' otherwise. *)
Theorem nonstreaming_generation_reports_context
    (w : World) (r : response) (props : list (string * jsval))
    (text : string) (n : Z) :
  JSString.trim (ai_prompt (document w)) <> "" ->
  fetch_result (env w) (requests (outside w)) (generate_request w) = Responds r ->
  json r = Parsed (JObj props) ->
  truthy (lookup "error" props) = false ->
  lookup "response" props = JStr text ->
  lookup "context_used" props = JNum (inject_Z n) ->
  (Z.abs n < 2 ^ 53)%Z ->
  let w' := exec (generateAIResponse false) w in
  requests (outside w') = (requests (outside w) ++ [generate_request w])%list /\
  responseContent (document w') =
    {| textContent := text; className := "ai-response-content" |} /\
  ((0 < n)%Z <->
   responseMeta (document w') = "Used context from " ++ decimal n ++ " notes") /\
  ((n <= 0)%Z <-> responseMeta (document w') = "No context used").
Proof.
  intros Hprompt Hfetch Hjson Herror Htext Hcount Hsmall.
  assert (Hrun : exec (generateAIResponse false) w =
    generation_finished
      (on_document
         (fun d =>
            with_responseMeta (context_report (env w) (JNum (inject_Z n)))
              (with_responseContent
                 {| textContent := text; className := "ai-response-content" |}
                 (with_ai_generate {| label := "Generating..."; disabled := true |} d)))
         (log_request (generate_request w) w))).
  { unfold exec, generateAIResponse, set_responseContent, set_responseMeta,
      generation_request. unfold_monad.
    rewrite (isEmpty_false _ Hprompt).
    unfold generate_request, generation_body in Hfetch.
    run. rewrite Hfetch. run. rewrite Hjson. run. rewrite Herror. run.
    rewrite Htext, Hcount. reflexivity. }
  cbv zeta. rewrite Hrun.
  unfold generation_finished, log_request, on_document, on_outside,
    with_responseMeta, with_responseContent, with_ai_generate. fields.
  rewrite (context_report_count _ _ (safe_integer_is_printed _ Hsmall)).
  split; [reflexivity |]. split; [reflexivity |].
  destruct (Z.ltb_spec 0 n); split; split; intros; try reflexivity;
    try discriminate; lia.
Qed.

(** ** Context-menu transforms *)

(** [updatePreview] sends its one request, and touches nothing else but
    the console. *)
Lemma updatePreview_sends (w : World) (cm : CodeMirror) :
  codeMirror (this w) = Some cm ->
  env (snd (updatePreview w)) = env w /\
  this (snd (updatePreview w)) = this w /\
  document (snd (updatePreview w)) = document w /\
  alerts (outside (snd (updatePreview w))) = alerts (outside w) /\
  requests (outside (snd (updatePreview w))) =
    (requests (outside w) ++ [preview_request (getValue cm)])%list.
Proof.
  intros Hcm. unfold updatePreview, editor, editor_getValue, preview_request.
  unfold_monad. rewrite Hcm. cbn [negb]. rewrite Hcm. cbv beta iota.
  destruct (fetch_result _ _ _) as [r | msg]; cbn [fst snd]; [| repeat split].
  destruct (json r) as [v | msg]; [| repeat split].
  destruct v; repeat split.
Qed.

(** A text that is not empty replaces the selection, and the listener of
    the change marks the note as unsaved and has the new text previewed. *)
Lemma replaceSelection_string (cm : CodeMirror) (text : string) (w : World) :
  text <> "" ->
  fst (replaceSelection cm (JStr text) w) = Returns tt /\
  env (snd (replaceSelection cm (JStr text) w)) = env w /\
  this (snd (replaceSelection cm (JStr text) w)) =
    with_unsavedChanges true (with_codeMirror (Some (replaced cm text)) (this w)) /\
  document (snd (replaceSelection cm (JStr text) w)) = document w /\
  alerts (outside (snd (replaceSelection cm (JStr text) w))) = alerts (outside w) /\
  requests (outside (snd (replaceSelection cm (JStr text) w))) =
    (requests (outside w) ++ [preview_request (getValue (replaced cm text))])%list.
Proof.
  intros Htext. unfold replaceSelection, on_change, updateUI, debouncedSimilaritySearch.
  rewrite (isEmpty_false _ Htext). cbn [andb].
  unfold bind, modify, detached, ret. cbn [fst snd].
  match goal with
  | |- context [updatePreview ?W] =>
      destruct (updatePreview_sends W (replaced cm text) eq_refl)
        as (He & Ht & Hd & Ha & Hr)
  end.
  rewrite He, Ht, Hd, Ha, Hr. repeat split.
Qed.


(** C8, as the claim states it, fails: a response that carries the text in
    [result_text] replaces nothing, the document stays as it was and counts
    as saved; the same text in [expanded_text] replaces the selection. *)
Lemma result_text_field_is_not_read_counterexample :
  codeMirror (this (exec (handleContextAction "expand") Example.page_result_text)) =
    Some Example.note /\
  unsavedChanges
    (this (exec (handleContextAction "expand") Example.page_result_text)) = false /\
  codeMirror (this (exec (handleContextAction "expand") Example.page_expanded_text)) =
    Some {| before := "Notes on retrieval: embeddings, learned from text, map it to vectors";
            selection := "";
            after := ", and vectors that lie close mean related notes." |}.
Proof. repeat split. Qed.

(** C8, amended. A transform sends [{text, context, model}] to expand,
    [{text, model}] to summarize and [{text, tone, model}] to rephrase, and
    the client takes the replacement of the selected text from the field of
    the response that goes with the action: [expanded_text], [summary] or
    [rephrased_text] (there is no common [result_text]). The replacement
    goes into the note with its line breaks as CodeMirror stores them, and
    the [change] event that follows sends the new text to be previewed:
    the request of the transform and that one are all the run sends. *)
Theorem transform_replacement_is_read_by_action
    (w : World) (cm : CodeMirror) (action endpoint field replacement : string)
    (payload : jsval) (r : response) (props : list (string * jsval)) :
  JSString.trim (selectedText (this w)) <> "" ->
  codeMirror (this w) = Some cm ->
  transform_request action (selectedText (this w)) (getValue cm)
    (ai_model_selector (document w)) = Some (endpoint, payload) ->
  fetch_result (env w) (requests (outside w))
    {| url := endpoint; method := "POST"; body := Some payload |} = Responds r ->
  json r = Parsed (JObj props) ->
  truthy (lookup "error" props) = false ->
  result_field action = Some field ->
  lookup field props = JStr replacement ->
  replacement <> "" ->
  (let w' := exec (handleContextAction action) w in
   requests (outside w') =
     (requests (outside w) ++
      [{| url := endpoint; method := "POST"; body := Some payload |};
       preview_request (getValue (replaced cm replacement))])%list /\
   codeMirror (this w') = Some (replaced cm replacement) /\
   unsavedChanges (this w') = true) /\
  (forall text context model : string,
     transform_request "expand" text context model =
       Some ("/api/ai/expand",
             JObj [("text", JStr text); ("context", JStr context);
                   ("model", JStr model)]) /\
     transform_request "summarize" text context model =
       Some ("/api/ai/summarize",
             JObj [("text", JStr text); ("model", JStr model)]) /\
     (forall tone : string,
        In tone ["professional"; "casual"; "academic"] ->
        transform_request ("rephrase-" ++ tone) text context model =
          Some ("/api/ai/rephrase",
                JObj [("text", JStr text); ("tone", JStr tone);
                      ("model", JStr model)]))) /\
  result_field "expand" = Some "expanded_text" /\
  result_field "summarize" = Some "summary" /\
  (forall tone : string, result_field ("rephrase-" ++ tone) = Some "rephrased_text").
Proof.
  intros Hsel Hcm Hreq Hfetch Hjson Herror Hfield Htext Hne.
  split; [| split; [| repeat split]].
  - unfold exec, handleContextAction, hideContextMenu, editor, editor_getValue,
      updateUI.
    unfold_monad.
    destruct (contextMenu (this w)); run;
      rewrite (isEmpty_false _ Hsel), Hcm; run;
      rewrite Hcm; run; rewrite Hreq; run; rewrite Hfetch; run;
      rewrite Hjson; run; rewrite Herror, Hfield; run; rewrite Htext; run;
      cbn [truthy]; rewrite (isEmpty_false _ Hne); run; rewrite Hcm; run;
      match goal with
      | |- context [replaceSelection cm (JStr replacement) ?W] =>
          destruct (replaceSelection_string cm replacement W Hne)
            as (Hr & _ & Ht & _ & _ & Hq);
          destruct (replaceSelection cm (JStr replacement) W) as [[u | e] W']
      end;
      cbn [fst snd] in *; try discriminate; run;
      rewrite Ht, Hq; run; rewrite <- app_assoc; repeat split.
  - intros text context model. split; [reflexivity |]. split; [reflexivity |].
    intros tone [<- | [<- | [<- | []]]]; reflexivity.
Qed.

(** ** The stream of a generation *)

Lemma no_LF_app (a b : string) : no_LF (a ++ b) = no_LF a && no_LF b.
Proof.
  induction a; simpl; [reflexivity |]. rewrite IHa. now rewrite andb_assoc.
Qed.

Lemma split_nonempty (s : string) : JSString.split JSString.LF s <> [].
Proof.
  destruct s as [| c s]; simpl; [discriminate |].
  destruct (Ascii.eqb c JSString.LF); [discriminate |].
  destruct (JSString.split JSString.LF s); discriminate.
Qed.

Lemma split_no_LF (t : string) :
  no_LF t = true -> JSString.split JSString.LF t = [t].
Proof.
  induction t as [| c t IH]; simpl; [reflexivity |].
  intros H. apply andb_true_iff in H as [Hc Ht].
  apply negb_true_iff in Hc. rewrite Hc, (IH Ht). reflexivity.
Qed.

Lemma split_line (t s : string) :
  no_LF t = true ->
  JSString.split JSString.LF (t ++ String JSString.LF s) =
  t :: JSString.split JSString.LF s.
Proof.
  induction t as [| c t IH]; simpl; [reflexivity |].
  intros H. apply andb_true_iff in H as [Hc Ht].
  apply negb_true_iff in Hc. rewrite Hc, (IH Ht). reflexivity.
Qed.

Lemma pop_cons {A : Type} (x : A) (xs : list A) :
  xs <> [] -> pop (x :: xs) = (let (last, front) := pop xs in (last, x :: front)).
Proof. destruct xs; [congruence | reflexivity]. Qed.

(** [split] and [pop] on the buffer give the complete lines and the rest. *)
Lemma pop_split_scan (s acc : string) :
  no_LF acc = true ->
  pop (JSString.split JSString.LF (acc ++ s)) =
  (let (ls, r) := scan acc s in (Some r, ls)).
Proof.
  revert acc. induction s as [| c s IH]; intros acc Hacc.
  - rewrite append_nil_r, (split_no_LF _ Hacc). reflexivity.
  - simpl scan. destruct (Ascii.eqb c JSString.LF) eqn:Hc.
    + apply Ascii.eqb_eq in Hc. subst c.
      rewrite (split_line _ _ Hacc), (pop_cons _ _ (split_nonempty s)).
      specialize (IH EmptyString eq_refl). simpl in IH. rewrite IH.
      destruct (scan "" s). reflexivity.
    + replace (acc ++ String c s) with ((acc ++ String c "") ++ s)
        by (rewrite append_assoc; reflexivity).
      apply IH. rewrite no_LF_app, Hacc. simpl. now rewrite Hc.
Qed.

Lemma scan_rest_no_LF (s acc : string) :
  no_LF acc = true -> no_LF (snd (scan acc s)) = true.
Proof.
  revert acc. induction s as [| c s IH]; intros acc Hacc; simpl; [exact Hacc |].
  destruct (Ascii.eqb c JSString.LF) eqn:Hc.
  - specialize (IH EmptyString eq_refl). destruct (scan "" s). exact IH.
  - apply IH. rewrite no_LF_app, Hacc. simpl. now rewrite Hc.
Qed.

(** Cutting the text into chunks does not change its lines. *)
Lemma scan_app (a b acc : string) :
  scan acc (a ++ b) =
  (let (la, ra) := scan acc a in
   let (lb, rb) := scan ra b in ((la ++ lb)%list, rb)).
Proof.
  revert acc. induction a as [| c a IH]; intros acc; simpl.
  - destruct (scan acc b). reflexivity.
  - destruct (Ascii.eqb c JSString.LF).
    + rewrite IH. destruct (scan "" a) as [la ra]. destruct (scan ra b). reflexivity.
    + apply IH.
Qed.

Lemma scan_line (t s acc : string) :
  no_LF t = true ->
  scan acc (t ++ String JSString.LF s) =
  (let (ls, r) := scan "" s in ((acc ++ t) :: ls, r)).
Proof.
  revert acc. induction t as [| c t IH]; intros acc H; simpl.
  - rewrite append_nil_r. reflexivity.
  - apply andb_true_iff in H as [Hc Ht]. apply negb_true_iff in Hc.
    rewrite Hc, (IH _ Ht), append_assoc. reflexivity.
Qed.

Lemma scan_stream (texts : list string) :
  Forall (fun t => no_LF t = true) texts ->
  scan "" (sse_stream texts) = (flat_map frame_lines texts, "").
Proof.
  unfold sse_stream.
  induction 1 as [| t ts Ht _ IH]; [reflexivity |].
  cbn [map]. rewrite concat_cons. unfold sse_frame at 1.
  replace (("data: " ++ t ++ String JSString.LF (String JSString.LF ""))
           ++ String.concat "" (map sse_frame ts))
    with (("data: " ++ t)
          ++ String JSString.LF
               (String JSString.LF (String.concat "" (map sse_frame ts)))).
  2:{ rewrite !append_assoc. reflexivity. }
  rewrite scan_line by exact Ht.
  cbn [scan]. change (Ascii.eqb JSString.LF JSString.LF) with true. cbn iota.
  rewrite IH. reflexivity.
Qed.

Lemma handle_lines_app (l1 l2 : list string) (cc : jsval) (w : World) :
  handle_lines (l1 ++ l2) cc w =
  bind (handle_lines l1 cc) (fun cc' => handle_lines l2 cc') w.
Proof.
  revert cc w. induction l1 as [| l l1 IH]; intros cc w; simpl.
  - reflexivity.
  - unfold bind. destruct (handle_line l cc w) as [[cc' | e] w']; [| reflexivity].
    rewrite IH. reflexivity.
Qed.

(** The loop handles the lines of the whole text, in order, however the
    text is cut into chunks; what follows the last line feed is dropped. *)
Lemma read_loop_scan (pending : list string) (failure : option string) :
  forall (buffer : string) (cc : jsval) (w : World),
    no_LF buffer = true ->
    read_loop pending failure buffer cc w =
    bind (handle_lines (fst (scan buffer (String.concat "" pending))) cc)
         (fun _ => finish failure) w.
Proof.
  induction pending as [| value rest IH]; intros buffer cc w Hb.
  - reflexivity.
  - cbn [read_loop].
    rewrite (pop_split_scan _ _ Hb), concat_cons, scan_app.
    pose proof (scan_rest_no_LF value buffer Hb) as Hr.
    destruct (scan buffer value) as [ls r]. simpl in Hr.
    replace (if JSString.isEmpty r then "" else r) with r by (destruct r; reflexivity).
    destruct (scan r (String.concat "" rest)) as [ls' r'] eqn:Hs.
    cbn [fst]. unfold bind. rewrite handle_lines_app.
    unfold bind.
    destruct (handle_lines ls cc w) as [[cc' | e] w']; [| reflexivity].
    rewrite (IH r cc' w' Hr), Hs. reflexivity.
Qed.

Lemma data_line_prefix (t : string) :
  JSString.startsWith ("data: " ++ t) "data: " = true.
Proof. unfold JSString.startsWith. simpl. destruct t; reflexivity. Qed.

(** What one [data:] line does, by the event it carries *)
Lemma handle_data_line (w : World) (ev : event) (text : string) (cc : jsval) :
  encodes (env w) ev text ->
  handle_line ("data: " ++ text) cc w =
  (Returns (fst (consume ev cc w)), snd (consume ev cc w)).
Proof.
  intros [Hparse _]. unfold handle_line. rewrite data_line_prefix.
  unfold try_catch, bind, gets. cbn [JSString.slice append]. rewrite Hparse.
  destruct ev; reflexivity.
Qed.

Lemma consume_env (ev : event) (cc : jsval) (w : World) :
  env (snd (consume ev cc w)) = env w.
Proof. destruct ev; reflexivity. Qed.

(** The lines of a stream of frames are handled as their events, consumed
    one after the other. *)
Lemma handle_stream_lines (evs : list event) (texts : list string) :
  forall (cc : jsval) (w : World),
    Forall2 (encodes (env w)) evs texts ->
    handle_lines (flat_map frame_lines texts) cc w =
    (Returns (fst (consume_all evs cc w)), snd (consume_all evs cc w)).
Proof.
  intros cc w H. revert cc.
  remember (env w) as e eqn:He. revert w He.
  induction H as [| ev text evs texts Hev _ IH]; intros w He cc; [reflexivity |].
  cbn [flat_map frame_lines app handle_lines consume_all].
  subst e. unfold bind. rewrite (handle_data_line _ _ _ _ Hev).
  change (handle_line "" (fst (consume ev cc w)) (snd (consume ev cc w)))
    with (Returns (fst (consume ev cc w)), snd (consume ev cc w)).
  pose proof (consume_env ev cc w) as Henv.
  destruct (consume ev cc w) as [cc' w']. cbn [fst snd] in *.
  apply IH. congruence.
Qed.

Lemma Forall2_encodes_no_LF (e : Env) (evs : list event) (texts : list string) :
  Forall2 (encodes e) evs texts -> Forall (fun t => no_LF t = true) texts.
Proof. induction 1 as [| ? ? ? ? [_ H] _ IH]; constructor; auto. Qed.

(** The client consumes the events of a stream strictly in their order,
    whatever the events and however the stream is cut into chunks. *)
Lemma read_loop_stream (w : World) (pending : list string) (failure : option string)
    (evs : list event) (texts : list string) (cc : jsval) :
  Forall2 (encodes (env w)) evs texts ->
  String.concat "" pending = sse_stream texts ->
  read_loop pending failure "" cc w =
  finish failure (snd (consume_all evs cc w)).
Proof.
  intros Henc Hcat.
  rewrite read_loop_scan by reflexivity.
  rewrite Hcat, (scan_stream _ (Forall2_encodes_no_LF _ _ _ Henc)).
  cbn [fst]. unfold bind. now rewrite (handle_stream_lines _ _ _ _ Henc).
Qed.

Lemma show_token_nil (w : World) : show_token "" w = w.
Proof.
  destruct w as [e t d o]. destruct d as [sc rb ms mi p uc am g rc rm].
  destruct rc as [tc cn]. unfold show_token, on_document, with_responseContent.
  cbn. now rewrite append_nil_r.
Qed.

Lemma show_token_app (a b : string) (w : World) :
  show_token b (show_token a w) = show_token (a ++ b) w.
Proof.
  unfold show_token, on_document, with_responseContent. cbn.
  now rewrite append_assoc.
Qed.

Lemma consume_tokens (tokens : list string) (rest : list event) :
  forall (cc : jsval) (w : World),
    consume_all (map Token tokens ++ rest) cc w =
    consume_all rest cc (show_token (String.concat "" tokens) w).
Proof.
  induction tokens as [| t ts IH]; intros cc w.
  - cbn [map app String.concat]. now rewrite show_token_nil.
  - cbn [map app consume_all consume]. rewrite IH, show_token_app, concat_cons.
    reflexivity.
Qed.

Lemma consume_orchestrate (count : nat) (tokens : list string) (e : ending)
    (cc : jsval) (w : World) :
  consume_all (orchestrate count tokens e) cc w =
  (count_json count, after_stream count tokens e w).
Proof.
  unfold orchestrate. cbn [consume_all consume].
  rewrite consume_tokens. destruct e; reflexivity.
Qed.

Lemma well_formed_orchestrate (count : nat) (tokens : list string) (e : ending) :
  well_formed_stream (orchestrate count tokens e) = true.
Proof.
  unfold orchestrate, well_formed_stream.
  induction tokens as [| t ts IH]; simpl.
  - destruct e; reflexivity.
  - destruct (map Token ts ++ [terminal e])%list eqn:E; [| exact IH].
    destruct ts; discriminate.
Qed.

(** The streams [well_formed_stream] accepts are those of [orchestrate]. *)
Lemma well_formed_stream_iff (evs : list event) :
  well_formed_stream evs = true <->
  exists count tokens e, evs = orchestrate count tokens e.
Proof.
  split.
  - destruct evs as [| [count | | |] rest]; try discriminate.
    simpl. intros H. exists count.
    assert (Hrest : exists tokens e, rest = (map Token tokens ++ [terminal e])%list).
    { clear count. induction rest as [| ev rest IH]; [discriminate |].
      destruct rest as [| ev' rest'].
      - destruct ev as [| | | msg]; try discriminate.
        + exists [], Completed. reflexivity.
        + exists [], (Failed msg). reflexivity.
      - destruct ev as [| content | |]; try discriminate.
        destruct (IH H) as (tokens & e & Heq).
        exists (content :: tokens), e. simpl. now rewrite Heq. }
    destruct Hrest as (tokens & e & ->). now exists tokens, e.
  - intros (count & tokens & e & ->). apply well_formed_orchestrate.
Qed.

(** C1. The events of a streaming generation are one context event with
    the count of context chunks (0 included), then the token events, then
    one done or error event; and the client consumes them strictly in this
    order, however the stream reaches it in chunks: the count is taken
    first, the tokens are appended to the response in their order, and the
    last event is handled last, with the count of the context event. *)
Theorem streamed_events_are_consumed_in_order
    (w : World) (r : response) (count : nat) (tokens : list string)
    (e : ending) (texts : list string) :
  JSString.trim (ai_prompt (document w)) <> "" ->
  fetch_result (env w) (requests (outside w)) (stream_request w) = Responds r ->
  ok r = true ->
  read_error r = None ->
  Forall2 (encodes (env w)) (orchestrate count tokens e) texts ->
  String.concat "" (chunks r) = sse_stream texts ->
  well_formed_stream (orchestrate count tokens e) = true /\
  generateAIResponse true w =
    (Returns tt,
     generation_finished (after_stream count tokens e (stream_opened w))) /\
  textContent (responseContent (document (exec (generateAIResponse true) w))) =
    String.concat "" tokens.
Proof.
  intros Hprompt Hfetch Hok Hread Henc Hcat.
  split; [apply well_formed_orchestrate |].
  assert (Hrun : generateAIResponse true w =
    (Returns tt,
     generation_finished (after_stream count tokens e (stream_opened w)))).
  { pose proof (read_loop_stream (stream_opened w) (chunks r) None
                  (orchestrate count tokens e) texts (JNum 0) Henc Hcat) as Hloop.
    rewrite consume_orchestrate in Hloop. cbn [snd finish] in Hloop.
    unfold generateAIResponse, set_responseContent, set_responseMeta,
      generation_request. unfold_monad.
    rewrite (isEmpty_false _ Hprompt).
    unfold stream_request, generation_body in Hfetch.
    run. rewrite Hfetch. run. rewrite Hok, Hread. run.
    match type of Hloop with
    | read_loop _ _ _ _ ?W' = _ =>
        match goal with
        | |- context [read_loop _ _ _ _ ?W] => change W with W'
        end
    end.
    rewrite Hloop. reflexivity. }
  split; [exact Hrun |].
  unfold exec. rewrite Hrun. cbn [snd].
  destruct e; reflexivity.
Qed.

(** C4: the client does not show the message of an error event. After a
    context event, one token and an error event, the response box holds the
    token and is still marked as streaming, the line under it is empty, and
    the message has gone to the console only, as an error parsing the
    stream: the [throw] of the message is caught by the [catch] around
    [JSON.parse], not by the one that shows errors. The same failure of a
    generation that is not streamed is shown. *)
Theorem error_event_message_is_not_displayed :
  responseContent (document
    (exec (generateAIResponse true) Example.page_stream_failed)) =
    {| textContent := "Embed"; className := "ai-response-content streaming" |} /\
  responseMeta (document
    (exec (generateAIResponse true) Example.page_stream_failed)) = "" /\
  alerts (outside
    (exec (generateAIResponse true) Example.page_stream_failed)) = [] /\
  console (outside
    (exec (generateAIResponse true) Example.page_stream_failed)) =
    [("Error parsing SSE data:", LogError (Error "model 'llama3' not found"))] /\
  responseContent (document
    (exec (generateAIResponse false) Example.page_generate_failed)) =
    {| textContent := "Error: model 'llama3' not found";
       className := "ai-response-content error" |}.
Proof. repeat split. Qed.

(** ** The theorems at work on the example pages *)

(** A completed generation with two context chunks and two tokens, reaching
    the reader in three chunks cut in the middle of lines. *)
Lemma streamed_events_are_consumed_in_order_witness :
  well_formed_stream Example.completed = true /\
  responseContent (document (exec (generateAIResponse true) Example.page_stream)) =
    {| textContent := "Embeddings"; className := "ai-response-content" |} /\
  responseMeta (document (exec (generateAIResponse true) Example.page_stream)) =
    "Used context from 2 notes".
Proof.
  destruct (streamed_events_are_consumed_in_order
              Example.page_stream (Example.stream_response Example.completed_chunks)
              2 ["Embed"; "dings"] Completed
              (map Example.event_text Example.completed))
    as (Hshape & Hrun & _).
  - intro H. vm_compute in H. discriminate H.
  - reflexivity.
  - reflexivity.
  - reflexivity.
  - repeat constructor.
  - vm_compute. reflexivity.
  - split; [exact Hshape |].
    unfold exec. rewrite Hrun. split; reflexivity.
Defined.

(** A note of eight characters once trimmed. *)
Lemma short_query_is_not_searched_witness :
  String.length (JSString.trim (getValue Example.short_note)) = 8 /\
  similar_content (document (exec searchSimilarContent Example.page_short)) =
    empty_panel /\
  requests (outside (exec searchSimilarContent Example.page_short)) = [].
Proof.
  split; [reflexivity |].
  destruct (short_query_is_not_searched Example.page_short Example.short_note)
    as (_ & Hpanel & Hrequests).
  - reflexivity.
  - vm_compute. lia.
  - split; [exact Hpanel | exact Hrequests].
Defined.

(** A response grounded on three notes. *)
Lemma nonstreaming_generation_reports_context_witness :
  responseContent (document (exec (generateAIResponse false) Example.page_generate)) =
    {| textContent := "You wrote that embeddings map text to vectors.";
       className := "ai-response-content" |} /\
  responseMeta (document (exec (generateAIResponse false) Example.page_generate)) =
    "Used context from 3 notes".
Proof.
  destruct (nonstreaming_generation_reports_context
              Example.page_generate (Example.json_response (JObj Example.generated))
              Example.generated "You wrote that embeddings map text to vectors." 3)
    as (_ & Hbox & Hused & _).
  - intro H. vm_compute in H. discriminate H.
  - reflexivity.
  - reflexivity.
  - reflexivity.
  - reflexivity.
  - reflexivity.
  - vm_compute. reflexivity.
  - split; [exact Hbox |]. apply Hused. lia.
Defined.



(** Expanding the selected text of the note. *)
Lemma transform_replacement_is_read_by_action_witness :
  codeMirror (this (exec (handleContextAction "expand") Example.page_expanded_text)) =
    Some {| before := "Notes on retrieval: embeddings, learned from text, map it to vectors";
            selection := "";
            after := ", and vectors that lie close mean related notes." |}.
Proof.
  destruct (transform_replacement_is_read_by_action
              Example.page_expanded_text Example.note "expand" "/api/ai/expand"
              "expanded_text" "embeddings, learned from text, map it to vectors"
              (JObj [("text", JStr "embeddings map text to vectors");
                     ("context", JStr (getValue Example.note));
                     ("model", JStr "llama3")])
              (Example.json_response (JObj Example.expanded)) Example.expanded)
    as ((_ & Hdoc & _) & _).
  - intro H. vm_compute in H. discriminate H.
  - reflexivity.
  - reflexivity.
  - reflexivity.
  - reflexivity.
  - reflexivity.
  - reflexivity.
  - reflexivity.
  - discriminate.
  - exact Hdoc.
Defined.

(** The server refuses the model the user picked. *)
Lemma changeModel_failure_keeps_model_witness :
  currentModel (this (exec (changeModel "all-mpnet-base-v2") Example.page_model_refused)) =
    JStr "all-MiniLM-L6-v2" /\
  value (model_selector (document
    (exec (changeModel "all-mpnet-base-v2") Example.page_model_refused))) =
    "all-MiniLM-L6-v2" /\
  changeModel "all-MiniLM-L6-v2" Example.page_model_refused =
    (Returns tt, Example.page_model_refused).
Proof.
  destruct (changeModel_failure_keeps_model
              Example.page_model_refused "all-mpnet-base-v2" "all-MiniLM-L6-v2")
    as ((_ & Hmodel & Hselector & _) & Hnoop).
  - reflexivity.
  - simpl. auto.
  - discriminate.
  - discriminate.
  - reflexivity.
  - split; [exact Hmodel |]. split; [| exact Hnoop].
    cbv zeta in Hselector. rewrite Hselector. reflexivity.
Defined.

(** * More properties of the client *)

(** ** Reading a property *)

Lemma get_prop_value (v : jsval) (name : string) (w : World) :
  get_prop v name w =
  if nullish v
  then (Throws (TypeError (cannot_read v name)), w)
  else (Returns (prop_of v name), w).
Proof. destruct v; reflexivity. Qed.

Lemma get_prop_outcome (v : jsval) (name : string) (w : World) :
  (nullish v = false /\ get_prop v name w = (Returns (prop_of v name), w)) \/
  (nullish v = true /\ exists e, get_prop v name w = (Throws e, w)).
Proof.
  destruct v; cbn; try (left; split; reflexivity);
    right; split; try reflexivity; eexists; reflexivity.
Qed.

Lemma truthy_not_nullish (v : jsval) : truthy v = true -> nullish v = false.
Proof. destruct v; simpl; congruence. Qed.

(** ** Generation, whatever the server does *)

Lemma beside_the_response_refl (w : World) : beside_the_response w w.
Proof. repeat split. Qed.

Lemma beside_the_response_trans (w1 w2 w3 : World) :
  beside_the_response w1 w2 -> beside_the_response w2 w3 ->
  beside_the_response w1 w3.
Proof.
  intros (He & Ht & Ha & Hr & Hd) (He' & Ht' & Ha' & Hr' & Hd').
  split; [congruence |]. split; [congruence |]. split; [congruence |].
  split; [congruence |].
  intros box meta. now rewrite Hd', Hd.
Qed.

Lemma response_console_error (label : string) (what : logged) :
  preserves beside_the_response (console_error label what).
Proof. intro w. repeat split. Qed.

Lemma response_set_box (f : Document -> TextBox) :
  preserves beside_the_response
    (modify (on_document (fun d => with_responseContent (f d) d))).
Proof. intro w. repeat split. Qed.

Lemma response_set_meta (s : string) :
  preserves beside_the_response (set_responseMeta s).
Proof. intro w. repeat split. Qed.

Ltac response_step :=
  first
    [ apply (preserves_bind _ beside_the_response_trans)
    | apply (preserves_try_catch _ beside_the_response_trans)
    | apply (preserves_ret _ beside_the_response_refl)
    | apply (preserves_throw _ beside_the_response_refl)
    | apply (preserves_gets _ beside_the_response_refl)
    | apply (preserves_get_prop _ beside_the_response_refl)
    | apply response_console_error
    | apply response_set_meta
    | apply (response_set_box (fun _ => _))
    | apply response_set_box
    | match goal with
      | |- preserves _ (if ?b then _ else _) => destruct b
      | |- preserves _ (match ?x with _ => _ end) => destruct x
      end
    | intro ].

Lemma response_handle_line (line : string) (cc : jsval) :
  preserves beside_the_response (handle_line line cc).
Proof. unfold handle_line. repeat response_step. Qed.

Lemma response_handle_lines (lines : list string) :
  forall cc, preserves beside_the_response (handle_lines lines cc).
Proof.
  induction lines as [| l ls IH]; intros cc; simpl.
  - apply (preserves_ret _ beside_the_response_refl).
  - apply (preserves_bind _ beside_the_response_trans);
      [apply response_handle_line | intro; apply IH].
Qed.

Lemma response_read_loop (pending : list string) (failure : option string) :
  forall buffer cc, preserves beside_the_response (read_loop pending failure buffer cc).
Proof.
  induction pending as [| v rest IH]; intros buffer cc; simpl.
  - destruct failure; [apply (preserves_throw _ beside_the_response_refl)
                      | apply (preserves_ret _ beside_the_response_refl)].
  - destruct (pop _) as [last lines'].
    apply (preserves_bind _ beside_the_response_trans);
      [apply response_handle_lines | intro; apply IH].
Qed.

(** A line never stops the stream: whatever it holds, handling it returns. *)
Lemma handle_line_returns (line : string) (cc : jsval) (w : World) :
  exists cc', fst (handle_line line cc w) = Returns cc'.
Proof.
  unfold handle_line. destruct (JSString.startsWith line "data: ").
  - unfold try_catch.
    match goal with
    | |- exists _, fst (match ?body with _ => _ end) = _ =>
        destruct body as [[a | e] w']
    end.
    + now exists a.
    + now exists cc.
  - now exists cc.
Qed.

Lemma handle_lines_returns (lines : list string) :
  forall (cc : jsval) (w : World), exists cc', fst (handle_lines lines cc w) = Returns cc'.
Proof.
  induction lines as [| l ls IH]; intros cc w; simpl.
  - now exists cc.
  - unfold bind. destruct (handle_line_returns l cc w) as [cc' H].
    destruct (handle_line l cc w) as [[a | e] w']; simpl in H; [| discriminate].
    apply IH.
Qed.

(** The loop ends as the reader does: it returns when the stream ends, and
    throws the reader's error when [read()] rejects. *)
Lemma read_loop_outcome (pending : list string) (failure : option string) :
  forall (buffer : string) (cc : jsval) (w : World),
    fst (read_loop pending failure buffer cc w) =
    match failure with
    | Some msg => Throws (Error msg)
    | None => Returns tt
    end.
Proof.
  induction pending as [| v rest IH]; intros buffer cc w; simpl.
  - destruct failure; reflexivity.
  - destruct (pop _) as [last lines']. unfold bind.
    destruct (handle_lines_returns lines' cc w) as [cc' H].
    destruct (handle_lines lines' cc w) as [[a | e] w']; simpl in H; [| discriminate].
    apply IH.
Qed.




(** X2. A streamed generation whose request fails (no response, a
    status that is not ok, or a reader that rejects) ends with the response
    box showing [Error: ] and the message, in the error class, and an empty
    line under it. *)
Theorem stream_that_cannot_be_read_shows_error (w : World) (msg : string) :
  JSString.trim (ai_prompt (document w)) <> "" ->
  stream_failure (fetch_result (env w) (requests (outside w)) (stream_request w)) =
    Some msg ->
  error_shown msg (exec (generateAIResponse true) w).
Proof.
  intros Hprompt. apply isEmpty_false in Hprompt.
  unfold stream_failure, exec, error_shown, generateAIResponse, set_responseContent,
    set_responseMeta, show_generation_error, generation_request,
    set_responseContent, set_responseMeta.
  unfold_monad. rewrite Hprompt. run.
  unfold stream_request, generation_body.
  destruct (fetch_result _ _ _) as [r | msg']; run;
    [| intros [= ->]; repeat split].
  destruct (ok r); run; [| intros [= <-]; repeat split].
  intros Hread. rewrite Hread.
  match goal with
  | |- context [read_loop ?p ?f ?b ?c ?W] =>
      pose proof (read_loop_outcome p f b c W) as Hout;
      destruct (read_loop p f b c W) as [[u | e] W']
  end; cbn [fst] in Hout; [discriminate |].
  injection Hout as ->. run. repeat split.
Qed.

Lemma answer_class_handle_line (line : string) (cc : jsval) :
  preserves (fun w w' => answer_class w -> answer_class w') (handle_line line cc).
Proof.
  assert (Hrefl : forall w : World, answer_class w -> answer_class w) by auto.
  assert (Htrans : forall w1 w2 w3 : World,
             (answer_class w1 -> answer_class w2) ->
             (answer_class w2 -> answer_class w3) ->
             answer_class w1 -> answer_class w3) by auto.
  unfold handle_line.
  repeat first
    [ apply (preserves_bind _ Htrans)
    | apply (preserves_try_catch _ Htrans)
    | apply (preserves_ret _ Hrefl)
    | apply (preserves_throw _ Hrefl)
    | apply (preserves_gets _ Hrefl)
    | apply (preserves_get_prop _ Hrefl)
    | match goal with
      | |- preserves _ (if ?b then _ else _) => destruct b
      | |- preserves _ (match ?x with _ => _ end) => destruct x
      | |- preserves _ (console_error _ _) => intros w H; exact H
      | |- preserves _ (set_responseMeta _) => intros w H; exact H
      | |- preserves _ (modify _) => intros w H; unfold answer_class in *; cbn; tauto
      end
    | intro ].
Qed.

Lemma answer_class_handle_lines (lines : list string) :
  forall cc, preserves (fun w w' => answer_class w -> answer_class w')
               (handle_lines lines cc).
Proof.
  induction lines as [| l ls IH]; intros cc; simpl.
  - intros w H. exact H.
  - intros w H. unfold bind.
    pose proof (answer_class_handle_line l cc w H) as H1.
    destruct (handle_line l cc w) as [[cc' | e] w']; cbn [snd] in *; [| exact H1].
    apply IH. exact H1.
Qed.

Lemma answer_class_read_loop (pending : list string) (failure : option string) :
  forall buffer cc,
    preserves (fun w w' => answer_class w -> answer_class w')
      (read_loop pending failure buffer cc).
Proof.
  induction pending as [| v rest IH]; intros buffer cc; simpl.
  - destruct failure; intros w H; exact H.
  - destruct (pop _) as [last lines']. intros w H. unfold bind.
    pose proof (answer_class_handle_lines lines' cc w H) as H1.
    destruct (handle_lines lines' cc w) as [[cc' | e] w']; cbn [snd] in *; [| exact H1].
    apply IH. exact H1.
Qed.

(** X5. No line of the stream stops the reading loop: it returns
    when the reader is done and throws only the reader's own error; and it
    changes nothing but the response box, the line under it and the
    console. *)
Theorem stream_lines_never_stop_the_reader (pending : list string)
    (failure : option string) (buffer : string) (cc : jsval) (w : World) :
  result (read_loop pending failure buffer cc) w =
    match failure with
    | Some msg => Throws (Error msg)
    | None => Returns tt
    end /\
  beside_the_response w (exec (read_loop pending failure buffer cc) w).
Proof.
  split; [apply read_loop_outcome | apply response_read_loop].
Qed.

(** X4. When the stream is opened and read to its end, nothing the
    server writes in it puts the response box in the error class: the box
    ends in the streaming class or, after a done event, in the plain one. *)
Theorem streamed_events_never_show_an_error (w : World) (r : response) :
  JSString.trim (ai_prompt (document w)) <> "" ->
  fetch_result (env w) (requests (outside w)) (stream_request w) = Responds r ->
  ok r = true ->
  read_error r = None ->
  answer_class (exec (generateAIResponse true) w).
Proof.
  intros Hprompt Hfetch Hok Hread. apply isEmpty_false in Hprompt.
  unfold exec, generateAIResponse, set_responseContent,
    set_responseMeta, show_generation_error, generation_request,
    set_responseContent, set_responseMeta.
  unfold_monad. rewrite Hprompt. run.
  unfold stream_request, generation_body in Hfetch. rewrite Hfetch. run.
  rewrite Hok, Hread. run.
  match goal with
  | |- context [read_loop ?p ?f ?b ?c ?W] =>
      pose proof (read_loop_outcome p f b c W) as Hout;
      pose proof (answer_class_read_loop p f b c W) as Hcls;
      destruct (read_loop p f b c W) as [[u | e] W']
  end; cbn [fst snd] in *; [| discriminate].
  run. unfold answer_class in *. cbn in Hcls. apply Hcls. left. reflexivity.
Qed.

(** X3. A generation that is not streamed and fails (no response, a
    body that is not JSON or holds no record, or a record with a truthy
    [error]) ends with the response box showing [Error: ] and the message,
    in the error class, and an empty line under it. *)
Theorem failed_generation_is_shown (w : World) (msg : string) :
  JSString.trim (ai_prompt (document w)) <> "" ->
  reported_failure (env w)
    (fetch_result (env w) (requests (outside w)) (generate_request w)) = Some msg ->
  error_shown msg (exec (generateAIResponse false) w).
Proof.
  intros Hprompt Hfail. apply isEmpty_false in Hprompt.
  unfold reported_failure in Hfail.
  unfold exec, error_shown, generateAIResponse, set_responseContent,
    set_responseMeta, show_generation_error, generation_request,
    set_responseContent, set_responseMeta.
  unfold_monad. rewrite Hprompt. run.
  unfold generate_request, generation_body in Hfail.
  destruct (fetch_result _ _ _) as [r | msg']; run;
    [| injection Hfail as ->; repeat split].
  destruct (json r) as [v | msg']; run;
    [| injection Hfail as ->; repeat split].
  rewrite get_prop_value.
  destruct (nullish v) eqn:Hv; run; [injection Hfail as <-; repeat split |].
  destruct (truthy (prop_of v "error")); [| discriminate]; run.
  injection Hfail as <-. repeat split.
Qed.

(** ** The side panel, whatever the response *)

Lemma add_children_nil (w : World) : add_children [] w = w.
Proof.
  destruct w as [e t d o]. destruct d as [sc rb ms mi p uc am g rc rm].
  destruct sc as [ph ch]. unfold add_children, on_document, with_similar_content.
  simpl. now rewrite app_nil_r.
Qed.

Lemma appendSimilarItem_value (item : jsval) (w : World) :
  match render_value (env w) item with
  | Some el => appendSimilarItem item w = (Returns tt, add_children [el] w)
  | None => exists e, appendSimilarItem item w = (Throws e, w)
  end.
Proof.
  unfold render_value, appendSimilarItem. unfold_monad.
  destruct item; cbn [nullish get_prop]; unfold throw, ret;
    try (eexists; reflexivity); reflexivity.
Qed.

(** The items are appended one by one up to the first [null] or
    [undefined], where the loop throws. *)
Lemma forEach_appendSimilarItem_values (items : list jsval) :
  forall w : World,
    (exists shown,
       map (render_value (env w)) items = map Some shown /\
       forEach appendSimilarItem items w = (Returns tt, add_children shown w)) \/
    (exists e w', forEach appendSimilarItem items w = (Throws e, w') /\
                  existsb nullish items = true).
Proof.
  induction items as [| item items IH]; intros w.
  - left. exists []. split; [reflexivity |]. cbn. now rewrite add_children_nil.
  - cbn [forEach map existsb]. unfold bind.
    pose proof (appendSimilarItem_value item w) as Hitem.
    unfold render_value in *. destruct (nullish item) eqn:Hn.
    + right. destruct Hitem as [e He]. rewrite He. exists e, w. split; reflexivity.
    + rewrite Hitem.
      match goal with |- context [add_children [?el] w] => set (x := el) end.
      destruct (IH (add_children [x] w)) as [(shown & Hmap & Hrun) | (e & w' & Hrun & Hex)].
      * left. exists (x :: shown). split.
        -- cbn [map]. f_equal. exact Hmap.
        -- rewrite Hrun. f_equal.
           unfold add_children, on_document, with_similar_content. fields.
           now rewrite <- app_assoc.
      * right. exists e, w'. split; [exact Hrun | exact Hex].
Qed.

Lemma updateSimilarContentDisplay_outcome (v : jsval) (w : World) :
  (exists e w', updateSimilarContentDisplay v w = (Throws e, w')) \/
  updateSimilarContentDisplay v w = (Returns tt, show_panel empty_panel w) \/
  (exists items shown,
     v = JArr items /\ items <> [] /\
     map (render_value (env w)) items = map Some shown /\
     updateSimilarContentDisplay v w =
       (Returns tt, show_panel {| placeholder := false; children := shown |} w)).
Proof.
  unfold updateSimilarContentDisplay, bind.
  destruct (get_prop_outcome v "length" w) as [[Hv ->] | [Hv [e ->]]];
    [| left; eauto].
  destruct (strict_equals (prop_of v "length") (JNum 0)) eqn:Hlen.
  - right. left. reflexivity.
  - unfold modify.
    destruct v; try (left; eexists; eexists; reflexivity).
    match goal with
    | |- context [forEach appendSimilarItem items ?W] =>
        destruct (forEach_appendSimilarItem_values items W)
          as [(shown & Hmap & ->) | (e & w' & -> & _)]
    end; [| left; eauto].
    right. right. exists items, shown.
    split; [reflexivity |]. split; [intros ->; discriminate Hlen |].
    split; [exact Hmap | reflexivity].
Qed.

(** X9. A similarity search never throws, and it leaves the side
    panel either in its empty state or showing every entry of a non-empty
    [similar] array of the response, in order: it never shows a part of the
    results. *)
Theorem similar_panel_is_empty_or_complete (w : World) :
  result searchSimilarContent w = Returns tt /\
  (similar_content (document (exec searchSimilarContent w)) = empty_panel \/
   exists (req : request) (r : response) (props : list (string * jsval))
          (items : list jsval),
     requests (outside (exec searchSimilarContent w)) =
       (requests (outside w) ++ [req])%list /\
     fetch_result (env w) (requests (outside w)) req = Responds r /\
     json r = Parsed (JObj props) /\
     lookup "similar" props = JArr items /\
     shows_all (env w) items
       (similar_content (document (exec searchSimilarContent w)))).
Proof.
  unfold result, exec, searchSimilarContent, editor, editor_getValue.
  unfold try_catch, bind, gets. cbv beta iota.
  destruct (truthy (currentFile (this w))) eqn:Hfile; cbn [negb orb];
    [| split; [reflexivity | left; reflexivity]].
  cbv beta iota.
  destruct (codeMirror (this w)) as [cm |] eqn:Hcm; cbn [negb];
    [| split; [reflexivity | left; reflexivity]].
  unfold ret. cbv beta iota. rewrite Hcm. cbv beta iota.
  destruct (String.length (JSString.trim (getValue cm)) <? 50)%nat;
    [split; [reflexivity | left; reflexivity] |].
  rewrite get_prop_value, (truthy_not_nullish _ Hfile).
  unfold fetch.
  match goal with
  | |- context [fetch_result (env w) (requests (outside w)) ?q] => set (req := q)
  end.
  destruct (fetch_result (env w) (requests (outside w)) req) as [r | msg] eqn:Hfetch;
    [| split; [reflexivity | left; reflexivity]].
  unfold response_json.
  destruct (json r) as [v | msg] eqn:Hjson;
    [| split; [reflexivity | left; reflexivity]].
  unfold ret.
  match goal with
  | |- context [get_prop v "similar" ?W] =>
      destruct (get_prop_outcome v "similar" W) as [[Hv ->] | [Hv [e ->]]]
  end; [| split; [reflexivity | left; reflexivity]].
  destruct (truthy (prop_of v "similar")) eqn:Hsim.
  - match goal with
    | |- context [updateSimilarContentDisplay ?x ?W] =>
        destruct (updateSimilarContentDisplay_outcome x W)
          as [(e & W' & ->) | [-> | (items & shown & Hitems & Hne & Hmap & ->)]]
    end.
    + split; [reflexivity | left; reflexivity].
    + split; [reflexivity | left; reflexivity].
    + split; [reflexivity |]. right.
      destruct v; cbn [prop_of] in Hitems;
        try (destruct (String.eqb "similar" "length"); discriminate).
      exists req, r, props, items.
      repeat split; assumption.
  - destruct (get_prop_outcome v "error"
                (on_outside
                   (fun o => {| alerts := alerts o; console := console o;
                                requests := (requests o ++ [req])%list |}) w))
      as [[_ ->] | [Hv' _]]; [| congruence].
    split; [reflexivity | left; reflexivity].
Qed.

(** ** The chunks of a stream *)

Lemma concat_app_last (parts : list string) (tail : string) :
  String.concat "" (parts ++ [tail]) = String.concat "" parts ++ tail.
Proof.
  induction parts as [| p ps IH]; cbn [app].
  - reflexivity.
  - rewrite !concat_cons, IH, append_assoc. reflexivity.
Qed.

Lemma scan_no_LF (t acc : string) :
  no_LF t = true -> scan acc t = ([], acc ++ t).
Proof.
  revert acc. induction t as [| c t IH]; intros acc H; simpl.
  - now rewrite append_nil_r.
  - apply andb_true_iff in H as [Hc Ht]. apply negb_true_iff in Hc.
    rewrite Hc, (IH _ Ht), append_assoc. reflexivity.
Qed.

(** X6. The reading loop depends on the text of the stream only,
    not on how the network cuts it into chunks. *)
Theorem read_loop_ignores_chunking (p1 p2 : list string) (failure : option string)
    (cc : jsval) (w : World) :
  String.concat "" p1 = String.concat "" p2 ->
  read_loop p1 failure "" cc w = read_loop p2 failure "" cc w.
Proof.
  intros H. rewrite !read_loop_scan by reflexivity. now rewrite H.
Qed.

(** X7. What follows the last line feed of the stream is never
    handled: a last line that no line feed ends is dropped when the stream
    ends. *)
Theorem unterminated_last_line_is_dropped (pending : list string) (tail : string)
    (failure : option string) (cc : jsval) (w : World) :
  no_LF tail = true ->
  read_loop (pending ++ [tail]) failure "" cc w = read_loop pending failure "" cc w.
Proof.
  intros H. rewrite !read_loop_scan by reflexivity.
  rewrite concat_app_last, scan_app.
  destruct (scan "" (String.concat "" pending)) as [la ra].
  rewrite (scan_no_LF _ _ H). cbn [fst]. now rewrite app_nil_r.
Qed.

Lemma handle_lines_skipped (lines : list string) (cc : jsval) (w : World) :
  forallb (fun l => negb (JSString.startsWith l "data: ")) lines = true ->
  handle_lines lines cc w = (Returns cc, w).
Proof.
  induction lines as [| l ls IH]; intros H; [reflexivity |].
  cbn [forallb] in H. apply andb_true_iff in H as [Hl Hls].
  apply negb_true_iff in Hl.
  cbn [handle_lines]. unfold bind, handle_line. rewrite Hl.
  exact (IH Hls).
Qed.

(** X8. A stream none of whose lines starts with [data: ] (comments,
    blank lines, other fields) changes nothing. *)
Theorem lines_without_data_prefix_are_ignored (pending : list string)
    (failure : option string) (cc : jsval) (w : World) :
  forallb (fun l => negb (JSString.startsWith l "data: "))
    (fst (scan "" (String.concat "" pending))) = true ->
  read_loop pending failure "" cc w = finish failure w.
Proof.
  intros H. rewrite read_loop_scan by reflexivity.
  unfold bind. now rewrite (handle_lines_skipped _ _ _ H).
Qed.

(** ** Rebuilding the index, whatever the server does *)



(** X13. A rebuild that fails sends its one request, alerts
    [Error indexing vault: ] with the reason, and starts no similarity
    search: the side panel is as before. *)
Theorem failed_reindex_leaves_the_panel (w : World) :
  has_vault (this w) = true ->
  request_succeeds
    (fetch_result (env w) (requests (outside w)) reindex_request) = false ->
  requests (outside (exec reindexVault w)) =
    (requests (outside w) ++ [reindex_request])%list /\
  similar_content (document (exec reindexVault w)) = similar_content (document w) /\
  exists msg : string,
    alerts (outside (exec reindexVault w)) =
      (alerts (outside w) ++ [("Error indexing vault: " ++ msg)%string])%list.
Proof.
  intros Hvault Hfail.
  unfold exec, reindexVault. unfold_monad. rewrite Hvault. run.
  unfold reindex_request in Hfail.
  destruct (fetch_result _ _ _) as [r | msg]; cbn [request_succeeds] in Hfail; run;
    [| repeat split; eexists; reflexivity].
  destruct (json r) as [v | msg]; run;
    [| repeat split; eexists; reflexivity].
  destruct v; run; try rewrite Hfail; cbn [truthy]; run;
    repeat split; eexists; reflexivity.
Qed.

(** ** Changing the embedding model: the accepted request *)











(** ** Context-menu transforms, whatever the server does *)




(** X18. A transform that fails (no response, a body that is not
    JSON or holds no record, or a record with a truthy [error]) alerts
    [Error processing text: ] with the message and leaves the note
    untouched. *)
Theorem failed_transform_is_alerted
    (w : World) (action endpoint msg : string) (payload : jsval) :
  JSString.trim (selectedText (this w)) <> "" ->
  transform_request action (selectedText (this w)) (editor_text (this w))
    (ai_model_selector (document w)) = Some (endpoint, payload) ->
  reported_failure (env w)
    (fetch_result (env w) (requests (outside w))
       {| url := endpoint; method := "POST"; body := Some payload |}) = Some msg ->
  let w' := exec (handleContextAction action) w in
  alerts (outside w') =
    (alerts (outside w) ++ [("Error processing text: " ++ msg)%string])%list /\
  codeMirror (this w') = codeMirror (this w) /\
  unsavedChanges (this w') = unsavedChanges (this w).
Proof.
  intros Hsel Hreq Hfail. cbv zeta. apply isEmpty_false in Hsel.
  unfold exec, handleContextAction, hideContextMenu, editor, editor_getValue,
    updateUI.
  unfold editor_text in Hreq. unfold reported_failure in Hfail.
  unfold_monad.
  destruct (contextMenu (this w)) eqn:Hmenu; run; rewrite Hsel; run;
    (destruct (codeMirror (this w)) as [cm |] eqn:Hcm; run; try rewrite Hcm; run;
     rewrite Hreq; run;
     (destruct (fetch_result _ _ _) as [r | msg']; run;
      [| injection Hfail as ->; repeat split; assumption];
      destruct (json r) as [v | msg']; run;
      [| injection Hfail as ->; repeat split; assumption];
      rewrite get_prop_value;
      destruct (nullish v) eqn:Hv; run;
      [injection Hfail as <-; repeat split; assumption |];
      destruct (truthy (prop_of v "error")); [| discriminate]; run;
      injection Hfail as <-; repeat split; assumption)).
Qed.

(** ** The side panel, item by item *)

(** X10. The score of a result with a numeric similarity is printed as
    the rounded percentage, an integer in decimal followed by [%], and its
    class is that of the printed integer. The percentage is
    [Math.round] of the product of the similarity and 100 as doubles
    multiply: [product] is that product, a double. *)
Theorem similarity_is_shown_as_rounded_percentage
    (e : Env) (props : list (string * jsval)) (score product : Q) :
  lookup "similarity" props = JNum score ->
  num_mul (Num score) (of_Z 100) = Num product ->
  (Z.abs (Qfloor (product + (1 # 2))) < 2 ^ 53)%Z ->
  item_score (render_item e props) =
    decimal (Qfloor (product + (1 # 2))) ++ "%" /\
  item_score_classes (render_item e props) =
    ["similar-item-score"; class_of_percentage (Qfloor (product + (1 # 2)))].
Proof.
  intros Hscore Hproduct Hsmall.
  unfold render_item. cbn [item_score item_score_classes].
  rewrite Hscore, (class_of_score _ _ _ Hproduct),
    (percentage_of_number _ _ _ Hproduct).
  split; [| reflexivity].
  unfold of_Z.
  change (Number_toString e (Num (inject_Z ?z)))
    with (ToString e (JNum (inject_Z z))).
  now rewrite (ToString_integer _ _ (safe_integer_is_printed _ Hsmall)).
Qed.

(** X11. A result without a similarity is shown as [NaN%], one with
    a [null] similarity as [0%]; both in the very-low class. *)
Theorem item_without_similarity_is_very_low
    (e : Env) (props : list (string * jsval)) :
  nullish (lookup "similarity" props) = true ->
  item_score (render_item e props) =
    (if strict_equals (lookup "similarity" props) JNull then "0%" else "NaN%") /\
  item_score_classes (render_item e props) =
    ["similar-item-score"; "confidence-very-low"].
Proof.
  unfold render_item. cbn [item_score item_score_classes].
  destruct (lookup "similarity" props); try discriminate; intros _; split; reflexivity.
Qed.

(** ** The model selector *)









(** ** The file tree *)

Lemma append_items_all (e : Env) (files : list jsval) :
  forall tree : list FileItem,
    forallb (fun f => negb (nullish f)) files = true ->
    append_items e files tree = ((tree ++ map (file_item e) files)%list, None).
Proof.
  induction files as [| f fs IH]; intros tree H; cbn [append_items map].
  - now rewrite app_nil_r.
  - cbn [forallb] in H. apply andb_true_iff in H as [Hf Hfs].
    apply negb_true_iff in Hf. rewrite Hf, (IH _ Hfs), <- app_assoc. reflexivity.
Qed.

Lemma renderFileTree_all (e : Env) (files : list jsval) :
  forallb (fun f => negb (nullish f)) files = true ->
  renderFileTree e files = (map (file_item e) files, None).
Proof. intros H. unfold renderFileTree. now rewrite (append_items_all _ _ [] H). Qed.

Lemma nth_error_update_nth {A : Type} (f : A -> A) (l : list A) :
  forall i j : nat,
    nth_error (update_nth i f l) j =
    if Nat.eqb j i then option_map f (nth_error l j) else nth_error l j.
Proof.
  induction l as [| x l IH]; intros i j.
  - destruct j, i; cbn; try reflexivity. now destruct (Nat.eqb j i).
  - destruct i, j; cbn; try reflexivity. apply IH.
Qed.

Lemma prefix_length (a b : string) :
  String.prefix a b = true -> String.length a <= String.length b.
Proof.
  revert b. induction a as [| c a IH]; intros b H; cbn; [lia |].
  destruct b as [| d b]; cbn in H; [discriminate |].
  destruct (ascii_dec c d); [| discriminate].
  apply IH in H. cbn. lia.
Qed.

Lemma length_append (a b : string) :
  String.length (a ++ b) = String.length a + String.length b.
Proof. induction a; cbn; congruence. Qed.

(** A folder is not under itself. *)
Lemma not_under_itself (p : string) : JSString.startsWith p (p ++ "/") = false.
Proof.
  unfold JSString.startsWith.
  destruct (String.prefix (p ++ "/") p) eqn:H; [| reflexivity].
  apply prefix_length in H. rewrite length_append in H. cbn in H. lia.
Qed.

Lemma contains_remove_other (t u : string) (classes : list string) :
  t <> u -> classList_contains t (classList_remove u classes) = classList_contains t classes.
Proof.
  intros Hne. unfold classList_contains, classList_remove.
  induction classes as [| c cs IH]; [reflexivity |].
  cbn [filter existsb]. destruct (String.eqb_spec u c) as [<- | Hc]; cbn [negb existsb].
  - destruct (String.eqb_spec t u); [congruence | exact IH].
  - now rewrite IH.
Qed.

Lemma contains_removed (t : string) (classes : list string) :
  classList_contains t (classList_remove t classes) = false.
Proof.
  unfold classList_contains, classList_remove.
  induction classes as [| c cs IH]; [reflexivity |].
  cbn [filter]. destruct (String.eqb_spec t c) as [<- | Hc]; cbn [negb existsb].
  - exact IH.
  - destruct (String.eqb_spec t c); [congruence | exact IH].
Qed.


Lemma contains_added (t : string) (classes : list string) :
  classList_contains t (classList_add t classes) = true.
Proof.
  unfold classList_add. destruct (classList_contains t classes) eqn:H; [exact H |].
  unfold classList_contains. rewrite existsb_app. cbn [existsb].
  now rewrite String.eqb_refl, orb_true_r.
Qed.

Lemma remove_absent (t : string) (classes : list string) :
  classList_contains t classes = false -> classList_remove t classes = classes.
Proof.
  unfold classList_contains, classList_remove. induction classes as [| c cs IH]; [reflexivity |].
  cbn [existsb filter]. intros H. apply orb_false_iff in H as [Hc Hcs].
  rewrite Hc. cbn [negb]. now rewrite (IH Hcs).
Qed.

Lemma remove_added (t : string) (classes : list string) :
  classList_contains t classes = false -> classList_remove t (classList_add t classes) = classes.
Proof.
  intros H. unfold classList_add. rewrite H. unfold classList_remove. rewrite filter_app.
  cbn [filter]. rewrite String.eqb_refl. cbn [negb].
  rewrite app_nil_r. now apply remove_absent.
Qed.

(** What hiding keeps of an element, and what it sets. *)
Lemma hide_item_spec (e : Env) (folderPath : jsval) (el : FileItem) :
  let el' := if is_file_item el then hide_item e folderPath el else el in
  data_path el' = data_path el /\
  data_type el' = data_type el /\
  data_level el' = data_level el /\
  is_file_item el' = is_file_item el /\
  (classList_contains "expanded" (classList el) = false ->
   classList_contains "expanded" (classList el') = false) /\
  (is_file_item el = true -> is_under e folderPath el = true ->
   display el' = "none" /\
   (data_type el = "folder" ->
    classList_contains "expanded" (classList el') = false /\ icon el' = ClosedFolder)).
Proof.
  cbv zeta. unfold hide_item, is_file_item.
  destruct (classList_contains "file-item" (classList el)) eqn:Hsel;
    [| repeat split; auto; discriminate].
  destruct (is_under e folderPath el) eqn:Hunder;
    [| repeat split; auto; discriminate].
  destruct (String.eqb_spec (data_type el) "folder") as [Htype | Htype];
    cbn [with_folder_state with_display data_path data_type data_level classList
         display icon].
  - rewrite contains_remove_other by discriminate.
    repeat split; auto using contains_removed.
  - repeat split; auto; contradiction.
Qed.

(** What showing keeps of an element, and what it sets. *)
Lemma show_item_spec (e : Env) (p : string) (el : FileItem) :
  let el' := if is_file_item el then show_item e p el else el in
  data_path el' = data_path el /\
  data_type el' = data_type el /\
  data_level el' = data_level el /\
  classList el' = classList el /\
  icon el' = icon el /\
  (is_under e (JStr p) el = false -> el' = el) /\
  (is_file_item el = true -> is_under e (JStr p) el = true ->
   display el' =
     if num_eq (parseInt (data_level el)) (of_Z (Z.of_nat (folder_level p) + 1))
     then "flex" else display el).
Proof.
  cbv zeta. unfold show_item.
  destruct (is_file_item el); [| repeat split; auto; discriminate].
  destruct (is_under e (JStr p) el); cbn [andb]; [| repeat split; auto; discriminate].
  destruct (num_eq _ _); repeat split; auto; discriminate.
Qed.

(** X20. Closing a folder hides everything under its path, however deep,
    and closes the folders among it; no element is added, removed or
    renamed. *)
Theorem collapsing_hides_every_descendant
    (e : Env) (i : nat) (folder : jsval) (tree : list FileItem) (el : FileItem) :
  nth_error tree i = Some el ->
  classList_contains "expanded" (classList el) = true ->
  nullish folder = false ->
  let tree' := fst (toggleFolder e i folder tree) in
  snd (toggleFolder e i folder tree) = None /\
  map data_path tree' = map data_path tree /\
  forall (j : nat) (el' : FileItem),
    nth_error tree' j = Some el' ->
    (j = i -> classList_contains "expanded" (classList el') = false) /\
    (is_file_item el' = true -> is_under e (prop_of folder "path") el' = true ->
     display el' = "none" /\
     (data_type el' = "folder" ->
      classList_contains "expanded" (classList el') = false /\ icon el' = ClosedFolder)).
Proof.
  intros Hi Hexp Hfolder. cbv zeta.
  unfold toggleFolder. rewrite Hi, Hexp, Hfolder. cbn [fst snd].
  split; [reflexivity |]. split.
  - unfold hideChildItems. rewrite map_map.
    apply nth_error_ext. intro j.
    rewrite !nth_error_map, nth_error_update_nth.
    destruct (Nat.eqb j i); destruct (nth_error tree j) as [x |]; cbn [option_map];
      try reflexivity; f_equal;
      match goal with
      | |- data_path (if is_file_item ?y then hide_item _ ?fp ?y else ?y) = _ =>
          destruct (hide_item_spec e fp y) as (-> & _)
      end; reflexivity.
  - intros j el' Hj. unfold hideChildItems in Hj.
    rewrite nth_error_map, nth_error_update_nth in Hj.
    destruct (Nat.eqb_spec j i) as [-> | Hne].
    + rewrite Hi in Hj. cbn [option_map] in Hj. injection Hj as <-.
      match goal with
      | |- context [if is_file_item ?y then hide_item _ ?fp ?y else ?y] =>
          destruct (hide_item_spec e fp y) as (Hp & Ht & _ & Hs & Hkeep & Hhide);
          set (el' := if is_file_item y then hide_item e fp y else y) in *
      end.
      cbn [with_folder_state classList] in Hkeep.
      split; [intros _; apply Hkeep, contains_removed |].
      intros Hsel Hunder. rewrite Hs in Hsel.
      unfold is_under in Hunder |- *. rewrite Hp in Hunder.
      rewrite Ht. apply Hhide; assumption.
    + destruct (nth_error tree j) as [x |]; [| discriminate].
      cbn [option_map] in Hj. injection Hj as <-.
      destruct (hide_item_spec e (prop_of folder "path") x)
        as (Hp & Ht & _ & Hs & _ & Hhide).
      split; [intros; contradiction |].
      intros Hsel Hunder. rewrite Hs in Hsel.
      unfold is_under in Hunder |- *. rewrite Hp in Hunder.
      rewrite Ht. apply Hhide; assumption.
Qed.

Lemma with_display_same (el : FileItem) :
  with_display (display el) el = el.
Proof. now destruct el. Qed.

Lemma with_folder_state_same (el : FileItem) :
  with_folder_state (classList el) (icon el) el = el.
Proof. now destruct el. Qed.

(** A folder freshly drawn, opened and closed again is as it was drawn. *)
Lemma close_open_fresh (el : FileItem) :
  classList el = ["file-item"; "folder"] ->
  icon el = ClosedFolder ->
  with_folder_state
    (classList_remove "expanded"
       (classList (with_folder_state (classList_add "expanded" (classList el)) OpenFolder el)))
    ClosedFolder
    (with_folder_state (classList_add "expanded" (classList el)) OpenFolder el) = el.
Proof. destruct el. cbn. intros -> ->. reflexivity. Qed.

(** An element that was hidden when drawn is as drawn once shown and
    hidden again. *)
Lemma hide_show_fresh (e : Env) (p : string) (el : FileItem) :
  (is_file_item el = true -> is_under e (JStr p) el = true ->
   display el = "none" /\
   (data_type el = "folder" ->
    classList el = ["file-item"; "folder"] /\ icon el = ClosedFolder)) ->
  let shown := if is_file_item el then show_item e p el else el in
  (if is_file_item shown then hide_item e (JStr p) shown else shown) = el.
Proof.
  intros Hfresh. cbv zeta. unfold show_item, hide_item.
  destruct (is_file_item el) eqn:Hsel; [| now rewrite Hsel].
  destruct (is_under e (JStr p) el) eqn:Hunder; cbn [andb].
  - destruct (Hfresh eq_refl eq_refl) as [Hnone Hfolder].
    assert (Hshown : forall b : bool,
              is_file_item (if b then with_display "flex" el else el) = true /\
              is_under e (JStr p) (if b then with_display "flex" el else el) = true /\
              data_type (if b then with_display "flex" el else el) = data_type el /\
              classList (if b then with_display "flex" el else el) = classList el /\
              with_display "none" (if b then with_display "flex" el else el) = el).
    { intros []; repeat split; try assumption;
        rewrite <- Hnone; destruct el; reflexivity. }
    destruct (Hshown (num_eq (parseInt (data_level el))
                        (of_Z (Z.of_nat (folder_level p) + 1))))
      as (-> & -> & -> & -> & ->).
    destruct (String.eqb_spec (data_type el) "folder") as [Htype | _];
      [| reflexivity].
    destruct (Hfolder Htype) as [Hcl Hic]. rewrite Hcl.
    change (classList_remove "expanded" ["file-item"; "folder"]) with ["file-item"; "folder"].
    rewrite <- Hcl, <- Hic. apply with_folder_state_same.
  - now rewrite Hsel, Hunder.
Qed.

Lemma file_item_folder (e : Env) (file : jsval) :
  prop_of file "type" = JStr "folder" ->
  classList (file_item e file) = ["file-item"; "folder"] /\
  icon (file_item e file) = ClosedFolder.
Proof. intros H. unfold file_item. cbn [classList icon]. now rewrite H. Qed.

(** X19. In a tree as [renderFileTree] draws it, opening a folder and
    closing it again gives back the tree as drawn, when what lies under the
    folder was drawn hidden (its level is not 0) and the types of the
    entries are strings. *)
Theorem opening_then_closing_restores_the_drawn_tree
    (e : Env) (files : list jsval) (i : nat) (folder : jsval) (p : string) :
  forallb (fun f => negb (nullish f)) files = true ->
  (forall f : jsval, In f files -> exists s : string, prop_of f "type" = JStr s) ->
  (forall f : jsval, In f files -> is_under e (JStr p) (file_item e f) = true ->
                     truthy (prop_of f "level") = true) ->
  nth_error files i = Some folder ->
  prop_of folder "type" = JStr "folder" ->
  prop_of folder "path" = JStr p ->
  let tree := fst (renderFileTree e files) in
  click_folder e i (fst (click_folder e i tree)) = (tree, None) /\
  snd (click_folder e i tree) = None.
Proof.
  intros Hfiles Htypes Hlevels Hi Htype Hpath. cbv zeta.
  rewrite (renderFileTree_all _ _ Hfiles). cbn [fst].
  assert (Hfolder : nullish folder = false).
  { rewrite forallb_forall in Hfiles. apply nth_error_In in Hi.
    apply Hfiles in Hi. now apply negb_true_iff in Hi. }
  destruct (file_item_folder e folder Htype) as [Hcl Hic].
  assert (Hself : is_under e (JStr p) (file_item e folder) = false).
  { unfold is_under, file_item. cbn [data_path]. rewrite Hpath. cbn [ToString].
    now rewrite not_under_itself, andb_false_r. }
  (* the first click opens the folder *)
  assert (Hfirst :
    click_folder e i (map (file_item e) files) =
    (map (fun el => if is_file_item el then show_item e p el else el)
       (update_nth i
          (fun el => with_folder_state (classList_add "expanded" (classList el)) OpenFolder el)
          (map (file_item e) files)), None)).
  { unfold click_folder, toggleFolder.
    rewrite nth_error_map, Hi. cbn [option_map].
    rewrite Hcl. cbn [classList_contains existsb String.eqb Ascii.eqb Bool.eqb orb].
    cbn [file_of file_item]. rewrite Hfolder, Hpath. reflexivity. }
  rewrite Hfirst. cbn [fst snd]. split; [| reflexivity].
  set (opened := with_folder_state
                   (classList_add "expanded" (classList (file_item e folder))) OpenFolder
                   (file_item e folder)).
  assert (Hopened_under : is_under e (JStr p) opened = false) by exact Hself.
  assert (Hnth :
    nth_error
      (map (fun el => if is_file_item el then show_item e p el else el)
         (update_nth i
            (fun el => with_folder_state (classList_add "expanded" (classList el)) OpenFolder el)
            (map (file_item e) files))) i = Some opened).
  { rewrite nth_error_map, nth_error_update_nth, Nat.eqb_refl, nth_error_map, Hi.
    cbn [option_map]. f_equal.
    destruct (show_item_spec e p opened) as (_ & _ & _ & _ & _ & Hsame & _).
    apply Hsame. exact Hopened_under. }
  unfold click_folder, toggleFolder. rewrite Hnth.
  assert (Hexp : classList_contains "expanded" (classList opened) = true).
  { unfold opened. cbn [with_folder_state classList]. apply contains_added. }
  rewrite Hexp. change (file_of opened) with folder. rewrite Hfolder, Hpath.
  f_equal. unfold hideChildItems.
  apply nth_error_ext. intro j.
  rewrite nth_error_map, nth_error_update_nth, nth_error_map, nth_error_update_nth,
    nth_error_map.
  destruct (Nat.eqb_spec j i) as [-> | Hne].
  - rewrite Hi. cbn [option_map]. f_equal. fold opened.
    destruct (show_item_spec e p opened) as (_ & _ & _ & _ & _ & Hsame & _).
    rewrite (Hsame Hopened_under).
    match goal with
    | |- (if is_file_item ?y then hide_item _ _ ?y else ?y) = _ =>
        assert (Hy : y = file_item e folder)
    end.
    { unfold opened. apply close_open_fresh; assumption. }
    rewrite Hy. unfold hide_item. rewrite Hself.
    destruct (is_file_item (file_item e folder)); reflexivity.
  - destruct (nth_error files j) as [f |] eqn:Hj; [| reflexivity].
    cbn [option_map]. f_equal.
    apply (hide_show_fresh e p (file_item e f)).
    intros _ Hunder. apply nth_error_In in Hj.
    pose proof (Hlevels f Hj Hunder) as Hlevel.
    destruct (Htypes f Hj) as [s Hs].
    split.
    + unfold file_item, level_or_zero. cbn [display]. rewrite Hlevel.
      destruct (prop_of f "level") as [| | b | q | s' | items | props];
        try discriminate; try reflexivity.
      cbn [truthy] in Hlevel. cbn [strict_equals].
      apply negb_true_iff in Hlevel. now rewrite Hlevel.
    + unfold file_item at 1. cbn [data_type]. rewrite Hs. cbn [ToString].
      intros ->. apply file_item_folder. exact Hs.
Qed.


(** ** The level of an entry, written to [data-level] and read back *)












(** ** The theorems above at work *)

(** A streamed generation with no server to reach. *)
Lemma stream_that_cannot_be_read_shows_error_witness :
  error_shown "Failed to fetch" (exec (generateAIResponse true) Scenario.offline).
Proof.
  apply (stream_that_cannot_be_read_shows_error Scenario.offline "Failed to fetch").
  - intro H. vm_compute in H. discriminate H.
  - reflexivity.
Defined.

(** The stream that ends with an error event. *)
Lemma streamed_events_never_show_an_error_witness :
  answer_class (exec (generateAIResponse true) Example.page_stream_failed).
Proof.
  apply (streamed_events_never_show_an_error Example.page_stream_failed
           (Example.stream_response [sse_stream (map Example.event_text Example.failed)])).
  - intro H. vm_compute in H. discriminate H.
  - reflexivity.
  - reflexivity.
  - reflexivity.
Defined.

(** The same failure, not streamed. *)
Lemma failed_generation_is_shown_witness :
  error_shown "model 'llama3' not found"
    (exec (generateAIResponse false) Example.page_generate_failed).
Proof.
  apply (failed_generation_is_shown Example.page_generate_failed).
  - intro H. vm_compute in H. discriminate H.
  - reflexivity.
Defined.

(** One frame, cut in the middle of its line and whole. *)
Lemma read_loop_ignores_chunking_witness :
  read_loop Scenario.cut None "" (JNum 0) Scenario.offline =
  read_loop Scenario.whole None "" (JNum 0) Scenario.offline.
Proof.
  apply (read_loop_ignores_chunking Scenario.cut Scenario.whole).
  reflexivity.
Defined.

(** A frame followed by a data line that no line feed ends. *)
Lemma unterminated_last_line_is_dropped_witness :
  read_loop (Scenario.whole ++ ["data: {}"]) None "" (JNum 0) Scenario.offline =
  read_loop Scenario.whole None "" (JNum 0) Scenario.offline.
Proof.
  apply (unterminated_last_line_is_dropped Scenario.whole "data: {}").
  reflexivity.
Defined.

(** A comment line and the blank line after it. *)
Lemma lines_without_data_prefix_are_ignored_witness :
  read_loop Scenario.keep_alive None "" (JNum 0) Scenario.offline =
  (Returns tt, Scenario.offline).
Proof.
  apply (lines_without_data_prefix_are_ignored Scenario.keep_alive None).
  reflexivity.
Defined.

(** A rebuild with no server to reach. *)
Lemma failed_reindex_leaves_the_panel_witness :
  requests (outside (exec reindexVault Scenario.offline)) = [reindex_request] /\
  similar_content (document (exec reindexVault Scenario.offline)) = empty_panel /\
  exists msg : string,
    alerts (outside (exec reindexVault Scenario.offline)) =
      [("Error indexing vault: " ++ msg)%string].
Proof.
  apply (failed_reindex_leaves_the_panel Scenario.offline); reflexivity.
Defined.


(** Summarizing the selection with no server to reach. *)
Lemma failed_transform_is_alerted_witness :
  alerts (outside (exec (handleContextAction "summarize") Scenario.offline)) =
    ["Error processing text: Failed to fetch"] /\
  codeMirror (this (exec (handleContextAction "summarize") Scenario.offline)) =
    Some Example.note /\
  unsavedChanges (this (exec (handleContextAction "summarize") Scenario.offline)) =
    false.
Proof.
  apply (failed_transform_is_alerted Scenario.offline "summarize" "/api/ai/summarize"
           "Failed to fetch"
           (JObj [("text", JStr "embeddings map text to vectors");
                  ("model", JStr "llama3")])).
  - intro H. vm_compute in H. discriminate H.
  - reflexivity.
  - reflexivity.
Defined.

(** A score of 0.595 is printed as 60%, in the high class: its product
    with 100 is the double 59.5, though 59 and a half is more than the
    exact product. *)
Lemma similarity_is_shown_as_rounded_percentage_witness :
  (Scenario.near_sixty * 100 < 119 # 2)%Q /\
  item_score (render_item (env Scenario.offline) Scenario.tipped) = "60%" /\
  item_score_classes (render_item (env Scenario.offline) Scenario.tipped) =
    ["similar-item-score"; "confidence-high"].
Proof.
  split; [reflexivity |].
  apply (similarity_is_shown_as_rounded_percentage
           (env Scenario.offline) Scenario.tipped Scenario.near_sixty (119 # 2)).
  - reflexivity.
  - vm_compute. reflexivity.
  - vm_compute. reflexivity.
Defined.

(** A result with a path and a snippet only. *)
Lemma item_without_similarity_is_very_low_witness :
  item_score (render_item (env Scenario.offline) Scenario.unscored) = "NaN%" /\
  item_score_classes (render_item (env Scenario.offline) Scenario.unscored) =
    ["similar-item-score"; "confidence-very-low"].
Proof.
  apply (item_without_similarity_is_very_low (env Scenario.offline) Scenario.unscored).
  reflexivity.
Defined.


(** The folder [notes] of the example vault, opened and closed. *)
Lemma opening_then_closing_restores_the_drawn_tree_witness :
  click_folder Vault.host 0 (fst (click_folder Vault.host 0 Vault.drawn)) =
    (Vault.drawn, None) /\
  snd (click_folder Vault.host 0 Vault.drawn) = None.
Proof.
  apply (opening_then_closing_restores_the_drawn_tree
           Vault.host Vault.files 0 Vault.notes "notes").
  - reflexivity.
  - intros f [<- | [<- | [<- | [<- | [<- | []]]]]]; eexists; reflexivity.
  - intros f [<- | [<- | [<- | [<- | [<- | []]]]]] H;
      first [reflexivity | vm_compute in H; discriminate H].
  - reflexivity.
  - reflexivity.
  - reflexivity.
Defined.

(** [notes] closed while [notes/deep] is open under it. *)
Lemma collapsing_hides_every_descendant_witness :
  map display (fst (toggleFolder Vault.host 0 Vault.notes Vault.opened)) =
    ["flex"; "none"; "none"; "none"; "flex"] /\
  forall (j : nat) (el' : FileItem),
    nth_error (fst (toggleFolder Vault.host 0 Vault.notes Vault.opened)) j = Some el' ->
    is_file_item el' = true ->
    is_under Vault.host (JStr "notes") el' = true ->
    display el' = "none".
Proof.
  split; [reflexivity |].
  intros j el' Hj Hsel Hunder.
  destruct (nth_error Vault.opened 0) as [el |] eqn:H0; [| discriminate H0].
  destruct (collapsing_hides_every_descendant
              Vault.host 0 Vault.notes Vault.opened el H0)
    as (_ & _ & Hall).
  - vm_compute in H0. injection H0 as <-. reflexivity.
  - reflexivity.
  - destruct (Hall j el' Hj) as [_ Hhide].
    apply Hhide; assumption.
Defined.


